(** * flask-yf-quotes: a shallow embedding of [app.py]

    The service fetches the two most recent daily bars of a ticker from a
    market-data provider, derives the percent change and a human readable
    volume, and answers with a flat JSON object, mapping failures to HTTP
    status codes.

    Modelling choices.
    - Python [float] is IEEE-754 binary64.  It is embedded as the Standard
      Library's [spec_float] at precision 53 and [emax] 1024, with the
      library's correctly rounded [SFsub], [SFmul], [SFdiv] and its
      comparisons; NaN, the infinities and the signed zeros are values.
    - [round(x, 4)], ["%.2f"] and [int(x)] are Python built-ins.  They are
      written out on the exact value [m * 2^e] of a finite float, following
      CPython: decimal rounding is round-half-even on the exact value, and
      [round] converts the rounded decimal back to the nearest float.
    - Exceptions are values of [exn]; a computation that may raise returns
      a [result].  The handlers of [get_quote] dispatch on the class: an
      exception that neither handler catches leaves [get_quote] as it
      came.
    - The provider ([yf.Ticker(symbol).history(period='2d')]) and the clock
      ([datetime.now(timezone.utc)]) are parameters of the embedding.
    - Text is modelled by its UTF-8 bytes.  [str.upper] follows the
      Unicode case tables, which are not written out: it is a parameter of
      the embedding (the class [Text]), known on ASCII text, where it is
      [upper].
    - The call to [app.logger.info] has no effect on the response and is
      left out. *)

From Stdlib Require Import ZArith List String Ascii Bool Lia.
From Stdlib Require Import DecimalString SpecFloat.
Import ListNotations.

Local Open Scope string_scope.
Local Open Scope Z_scope.

(** ** Exceptions and fallible computations *)

Record exn : Type := mk_exn {
  exn_class : string;          (* name of the exception class *)
  exn_is_Exception : bool;     (* isinstance(exc, Exception) *)
  exn_is_ValueError : bool;    (* isinstance(exc, ValueError) *)
  exn_str : string             (* str(exc) *)
}.

Definition ValueError (msg : string) : exn :=
  mk_exn "ValueError" true true msg.
Definition OverflowError (msg : string) : exn :=
  mk_exn "OverflowError" true false msg.
Definition ZeroDivisionError (msg : string) : exn :=
  mk_exn "ZeroDivisionError" true false msg.
Definition IndexError (msg : string) : exn :=
  mk_exn "IndexError" true false msg.

Inductive result (A : Type) : Type :=
| Ok (a : A)
| Raise (e : exn).
Arguments Ok {A} a.
Arguments Raise {A} e.

Definition bind {A B : Type} (r : result A) (k : A -> result B) : result B :=
  match r with
  | Ok a => k a
  | Raise e => Raise e
  end.

Notation "x <- r ;; k" := (bind r (fun x => k))
  (at level 61, r at next level, right associativity).
Notation "' p <- r ;; k" := (bind r (fun p => k))
  (at level 61, p pattern, r at next level, right associativity).

(** ** Python floats *)

Module PyFloat.

Definition prec : Z := 53.
Definition emax : Z := 1024.

Definition float : Type := spec_float.

Definition nan : float := S754_nan.
Definition zero : float := S754_zero false.

(** The float nearest to an integer, as [float(n)] and integer literals
    used in float arithmetic. *)
Definition of_Z (n : Z) : float := binary_normalize prec emax n 0 false.

(** The float denoted by the decimal literal [n / 10^k] (both [n] and
    [10^k] below [2^53], so that the correctly rounded quotient is the
    nearest float). *)
Definition of_decimal (n : Z) (k : Z) : float :=
  SFdiv prec emax (of_Z n) (of_Z (10 ^ k)).

Definition sub : float -> float -> float := SFsub prec emax.
Definition mul : float -> float -> float := SFmul prec emax.
Definition abs : float -> float := SFabs.
Definition eqb : float -> float -> bool := SFeqb.
Definition leb : float -> float -> bool := SFleb.
Definition ltb : float -> float -> bool := SFltb.

(** [x >= y] *)
Definition geb (x y : float) : bool := leb y x.

(** [x / y]: raises on a zero divisor. *)
Definition truediv (x y : float) : result float :=
  if eqb y zero then Raise (ZeroDivisionError "float division by zero")
  else Ok (SFdiv prec emax x y).

Definition is_finite (x : float) : bool :=
  match x with
  | S754_zero _ | S754_finite _ _ _ => true
  | S754_infinity _ | S754_nan => false
  end.

(** [m * 2^e * 10^k] rounded to an integer, ties to even. *)
Definition scaled_half_even (m : positive) (e : Z) (k : Z) : Z :=
  let num := Zpos m * 10 ^ k in
  if 0 <=? e then num * 2 ^ e
  else
    let den := 2 ^ (- e) in
    let q := num / den in
    let r := num mod den in
    match 2 * r ?= den with
    | Lt => q
    | Gt => q + 1
    | Eq => if Z.even q then q else q + 1
    end.

(** [round(x, 4)].  Non-finite values and zeros round to themselves; a
    finite value is rounded to four decimals on its exact value and the
    decimal is converted back to the nearest float, keeping the sign. *)
Definition round4 (x : float) : float :=
  match x with
  | S754_finite s m e =>
      match scaled_half_even m e 4 with
      | Zpos n => SFdiv prec emax (S754_finite s n 0) (S754_finite false 10000 0)
      | _ => S754_zero s
      end
  | _ => x
  end.

(** [int(x)]: truncation toward zero; NaN and the infinities raise. *)
Definition to_int (x : float) : result Z :=
  match x with
  | S754_nan => Raise (ValueError "cannot convert float NaN to integer")
  | S754_infinity _ =>
      Raise (OverflowError "cannot convert float infinity to integer")
  | S754_zero _ => Ok 0
  | S754_finite s m e => Ok (cond_Zopp s (Z.shiftl (Zpos m) e))
  end.

End PyFloat.

(** ** Text formatting *)

(** [str(n)] for an integer. *)
Definition str_of_Z (n : Z) : string := NilZero.string_of_int (Z.to_int n).

(** [%0wd] for a non-negative [n]. *)
Fixpoint zeros (k : nat) : string :=
  match k with
  | O => ""
  | S k' => "0" ++ zeros k'
  end.

Definition pad0 (w : nat) (n : Z) : string :=
  let s := str_of_Z n in
  zeros (w - String.length s) ++ s.

Definition sign_str (s : bool) : string := if s then "-" else "".

(** [f"{x:.2f}"] *)
Definition format_2f (x : PyFloat.float) : string :=
  match x with
  | S754_nan => "nan"
  | S754_infinity s => sign_str s ++ "inf"
  | S754_zero s => sign_str s ++ "0.00"
  | S754_finite s m e =>
      let n := PyFloat.scaled_half_even m e 2 in
      sign_str s ++ str_of_Z (n / 100) ++ "." ++ pad0 2 (n mod 100)
  end.

(** Uppercasing of ASCII text: the letters a..z are replaced by A..Z and
    every other byte is kept. *)
Definition upper_ascii (c : ascii) : ascii :=
  let n := nat_of_ascii c in
  if ((97 <=? n) && (n <=? 122))%nat then ascii_of_nat (n - 32) else c.

Fixpoint upper (s : string) : string :=
  match s with
  | EmptyString => EmptyString
  | String c s' => String (upper_ascii c) (upper s')
  end.

(** [c.islower()] for one ASCII character. *)
Definition is_lower (c : ascii) : bool :=
  let n := nat_of_ascii c in ((97 <=? n) && (n <=? 122))%nat.

(** [s.isascii()]: every byte is below 128. *)
Fixpoint is_ascii (s : string) : bool :=
  match s with
  | EmptyString => true
  | String c s' => (nat_of_ascii c <? 128)%nat && is_ascii s'
  end.

(** [str.upper], the builtin the service calls on the symbol.  On text
    outside ASCII it follows the Unicode case tables (it may even change
    the length of the text), so it is kept as an operation of the
    interface [Text]. *)
Class Text : Type := {
  str_upper : string -> string
}.

(** What is known of [str.upper]: on ASCII text it is [upper]. *)
Definition upper_on_ascii {T : Text} : Prop :=
  forall s, is_ascii s = true -> str_upper s = upper s.

(** The interface on ASCII text, used to run the service on ASCII
    symbols. *)
#[global] Instance ascii_text : Text := {| str_upper := upper |}.

(** ** Datetimes *)

Record tzinfo : Type := mk_tzinfo {
  utcoffset : Z                (* seconds east of UTC *)
}.

(** [timezone.utc] *)
Definition timezone_utc : tzinfo := mk_tzinfo 0.

Record datetime : Type := mk_datetime {
  year : Z;
  month : Z;
  day : Z;
  hour : Z;
  minute : Z;
  second : Z;
  microsecond : Z;
  dt_tzinfo : option tzinfo    (* [None] for a naive datetime *)
}.

(** [dt.replace(tzinfo=tz)]: same calendar fields, new zone. *)
Definition replace_tzinfo (dt : datetime) (tz : tzinfo) : datetime :=
  mk_datetime (year dt) (month dt) (day dt) (hour dt) (minute dt)
              (second dt) (microsecond dt) (Some tz).

(** Lines 37-38 of [_fetch_quote] as a function of the index entry: a
    naive timestamp is tagged with UTC, an aware one is kept. *)
Definition utc_if_naive (dt : datetime) : datetime :=
  match dt_tzinfo dt with
  | None => replace_tzinfo dt timezone_utc
  | Some _ => dt
  end.

(** The [+HH:MM] (or [+HH:MM:SS]) suffix of [isoformat]. *)
Definition format_offset (off : Z) : string :=
  let sign := if off <? 0 then "-" else "+" in
  let a := Z.abs off in
  let hh := a / 3600 in
  let mm := (a mod 3600) / 60 in
  let ss := a mod 60 in
  sign ++ pad0 2 hh ++ ":" ++ pad0 2 mm
       ++ (if ss =? 0 then "" else ":" ++ pad0 2 ss).

(** The date and time part of [isoformat], without the zone. *)
Definition isoformat_local (dt : datetime) : string :=
  pad0 4 (year dt) ++ "-" ++ pad0 2 (month dt) ++ "-" ++ pad0 2 (day dt)
    ++ "T" ++ pad0 2 (hour dt) ++ ":" ++ pad0 2 (minute dt) ++ ":"
    ++ pad0 2 (second dt)
    ++ (if microsecond dt =? 0 then "" else "." ++ pad0 6 (microsecond dt)).

(** [dt.isoformat()] *)
Definition isoformat (dt : datetime) : string :=
  isoformat_local dt ++
  match dt_tzinfo dt with
  | Some tz => format_offset (utcoffset tz)
  | None => ""
  end.

(** ** The provider's data frame *)

(** One row of the frame returned by [history]: the index entry and the
    [Close] and [Volume] columns. *)
Record bar : Type := mk_bar {
  bar_index : datetime;
  Close : PyFloat.float;
  Volume : PyFloat.float
}.

Definition frame : Type := list bar.

(** [hist.empty] *)
Definition empty (hist : frame) : bool :=
  match hist with
  | [] => true
  | _ :: _ => false
  end.

(** Positional indexing [col.iloc[i]] and [index[i]]: a negative [i]
    counts from the end, and a position outside the column raises. *)
Definition iloc {A : Type} (col : list A) (i : Z) : result A :=
  let n := Z.of_nat (List.length col) in
  let j := if i <? 0 then n + i else i in
  if (0 <=? j) && (j <? n) then
    match nth_error col (Z.to_nat j) with
    | Some a => Ok a
    | None => Raise (IndexError "single positional indexer is out-of-bounds")
    end
  else Raise (IndexError "single positional indexer is out-of-bounds").

(** [yf.Ticker(symbol).history(period='2d')]: a frame, or an exception. *)
Definition provider : Type := string -> result frame.

(** ** The service *)

Definition quote_tuple : Type :=
  (PyFloat.float * PyFloat.float * datetime * PyFloat.float)%type.

(** [_fetch_quote] *)
Definition _fetch_quote (history : provider) (symbol : string)
  : result quote_tuple :=
  hist <- history symbol ;;
  if empty hist then
    Raise (ValueError ("No price data available for symbol '" ++ symbol ++ "'."))
  else
    last_close <- iloc (map Close hist) (-1) ;;
    prev_close <- (if 1 <? Z.of_nat (List.length (map Close hist))
                   then iloc (map Close hist) (-2)
                   else Ok last_close) ;;
    timestamp <- iloc (map bar_index hist) (-1) ;;
    let timestamp :=
      match dt_tzinfo timestamp with
      | None => replace_tzinfo timestamp timezone_utc
      | Some _ => timestamp
      end in
    volume <- iloc (map Volume hist) (-1) ;;
    if PyFloat.eqb prev_close PyFloat.zero then
      Raise (ValueError ("Previous close is zero for symbol '" ++ symbol ++ "'."))
    else Ok (last_close, prev_close, timestamp, volume).

(** The two errors [_fetch_quote] raises: no data for the symbol, and a
    zero previous close. *)
Definition not_found (symbol : string) : exn :=
  ValueError ("No price data available for symbol '" ++ symbol ++ "'.").

Definition invalid_data (symbol : string) : exn :=
  ValueError ("Previous close is zero for symbol '" ++ symbol ++ "'.").

(** [_format_volume] *)
Definition _format_volume (volume : PyFloat.float) : result string :=
  let abs_volume := PyFloat.abs volume in
  if PyFloat.geb abs_volume (PyFloat.of_Z 1000000000) then
    q <- PyFloat.truediv volume (PyFloat.of_Z 1000000000) ;;
    Ok (format_2f q ++ "B")
  else if PyFloat.geb abs_volume (PyFloat.of_Z 1000000) then
    q <- PyFloat.truediv volume (PyFloat.of_Z 1000000) ;;
    Ok (format_2f q ++ "M")
  else if PyFloat.geb abs_volume (PyFloat.of_Z 1000) then
    q <- PyFloat.truediv volume (PyFloat.of_Z 1000) ;;
    Ok (format_2f q ++ "K")
  else
    n <- PyFloat.to_int volume ;;
    Ok (str_of_Z n).

(** JSON values of the response bodies. *)
Inductive value : Type :=
| VStr (s : string)
| VFloat (x : PyFloat.float)
| VInt (n : Z).

(** A Python [dict] with string keys, in insertion order. *)
Definition dict : Type := list (string * value).

Fixpoint get (d : dict) (k : string) : option value :=
  match d with
  | [] => None
  | (k', v) :: d' => if String.eqb k k' then Some v else get d' k
  end.

Definition keys (d : dict) : list string := map fst d.

(** [_build_response]; [now] is the reading of
    [datetime.now(timezone.utc)]. *)
Definition _build_response {T : Text} (history : provider) (now : datetime)
  (symbol : string) : result dict :=
  let symbol := str_upper symbol in
  '(last_price, prev_close, timestamp, volume) <- _fetch_quote history symbol ;;
  d <- PyFloat.truediv (PyFloat.sub last_price prev_close) prev_close ;;
  let change_percent := PyFloat.mul d (PyFloat.of_Z 100) in
  let server_time_utc := isoformat (replace_tzinfo now timezone_utc) in
  volume_int <- PyFloat.to_int volume ;;
  volume_formatted <- _format_volume volume ;;
  Ok [ ("symbol", VStr symbol);
       ("last_price", VFloat (PyFloat.round4 last_price));
       ("previous_close", VFloat (PyFloat.round4 prev_close));
       ("change_percent", VFloat (PyFloat.round4 change_percent));
       ("volume", VInt volume_int);
       ("volume_formatted", VStr volume_formatted);
       ("timestamp", VStr (isoformat timestamp));
       ("last_updated_utc", VStr server_time_utc) ].

(** The dict literal of lines 75-84 as a function of the values computed
    before it; used to state what [_build_response] returns. *)
Definition quote_dict (symbol : string) (last_price prev_close : PyFloat.float)
  (timestamp : datetime) (volume_int : Z) (volume_formatted : string)
  (now : datetime) : dict :=
  [ ("symbol", VStr symbol);
    ("last_price", VFloat (PyFloat.round4 last_price));
    ("previous_close", VFloat (PyFloat.round4 prev_close));
    ("change_percent",
     VFloat (PyFloat.round4
               (PyFloat.mul
                  (SFdiv PyFloat.prec PyFloat.emax
                         (PyFloat.sub last_price prev_close) prev_close)
                  (PyFloat.of_Z 100))));
    ("volume", VInt volume_int);
    ("volume_formatted", VStr volume_formatted);
    ("timestamp", VStr (isoformat timestamp));
    ("last_updated_utc", VStr (isoformat (replace_tzinfo now timezone_utc))) ].

(** A Flask response: status code and JSON body. *)
Record response : Type := mk_response {
  status : Z;
  body : dict
}.

(** [get_quote]: the route [/api/quote/<symbol>].  [except ValueError]
    is tried first, then [except Exception]; an exception that is an
    instance of neither ([KeyboardInterrupt], [SystemExit], ...) is not
    caught and leaves the function. *)
Definition get_quote {T : Text} (history : provider) (now : datetime)
  (symbol : string) : result response :=
  match _build_response history now symbol with
  | Ok data => Ok (mk_response 200 data)
  | Raise exc =>
      if exn_is_ValueError exc then
        Ok (mk_response 404 [ ("error", VStr (exn_str exc)) ])
      else if exn_is_Exception exc then
        Ok (mk_response 502 [ ("error", VStr "Failed to reach Yahoo Finance");
                              ("details", VStr (exn_str exc)) ])
      else Raise exc
  end.

(** ** Sample inputs *)

Module Samples.

Definition now : datetime := mk_datetime 2024 3 5 14 7 9 123 None.

Definition naive_day : datetime := mk_datetime 2024 3 4 0 0 0 0 None.
Definition new_york_day : datetime :=
  mk_datetime 2024 3 5 0 0 0 0 (Some (mk_tzinfo (-18000))).

(** Two bars: closes 170.12 and 175.10, last volume 52,345,678. *)
Definition two_bars : frame :=
  [ mk_bar naive_day (PyFloat.of_decimal 17012 2) (PyFloat.of_Z 48116400);
    mk_bar new_york_day (PyFloat.of_decimal 17510 2) (PyFloat.of_Z 52345678) ].

(** Two bars of a sub-cent instrument: closes 0.00001 and 0.000012. *)
Definition tiny_bars : frame :=
  [ mk_bar naive_day (PyFloat.of_decimal 1 5) (PyFloat.of_Z 1000);
    mk_bar new_york_day (PyFloat.of_decimal 12 6) (PyFloat.of_Z 123456) ].

(** Two bars whose earlier close is zero. *)
Definition zero_prev_bars : frame :=
  [ mk_bar naive_day PyFloat.zero (PyFloat.of_Z 0);
    mk_bar new_york_day (PyFloat.of_decimal 325 2) (PyFloat.of_Z 900) ].

Definition one_bar : frame :=
  [ mk_bar naive_day (PyFloat.of_decimal 4275 2) (PyFloat.of_Z 1500) ].

Definition one_zero_bar : frame :=
  [ mk_bar naive_day (S754_zero true) (PyFloat.of_Z 1500) ].

Definition one_nan_bar : frame :=
  [ mk_bar naive_day PyFloat.nan (PyFloat.of_Z 1500) ].

Definition serve (hist : frame) : provider := fun _ => Ok hist.

(** A provider whose reply cannot be decoded: [json.JSONDecodeError] is a
    subclass of [ValueError]. *)
Definition decode_error : exn :=
  mk_exn "JSONDecodeError" true true
         "Expecting value: line 1 column 1 (char 0)".

(** A provider that cannot be reached. *)
Definition connection_error : exn :=
  mk_exn "ConnectionError" true false "Max retries exceeded".

(** An interrupt during the call of the provider: [KeyboardInterrupt]
    derives from [BaseException], not from [Exception]. *)
Definition interrupt : exn := mk_exn "KeyboardInterrupt" false false "".

Definition failing (e : exn) : provider := fun _ => Raise e.

End Samples.

(** ** Edge-case inputs *)

Module Edge.

(** One bar whose volume is missing (NaN). *)
Definition nan_volume_bar : frame :=
  [ mk_bar Samples.naive_day (PyFloat.of_decimal 4275 2) PyFloat.nan ].

(** One bar whose volume is infinite. *)
Definition inf_volume_bar : frame :=
  [ mk_bar Samples.naive_day (PyFloat.of_decimal 4275 2) (S754_infinity false) ].

(** Three bars: an older row in front of [Samples.two_bars]. *)
Definition three_bars : frame :=
  mk_bar Samples.naive_day (PyFloat.of_decimal 16800 2) (PyFloat.of_Z 39000000)
  :: Samples.two_bars.

(** Two bars with the same close 42.75 and a last volume of 417.75. *)
Definition flat_bars : frame :=
  [ mk_bar Samples.naive_day (PyFloat.of_decimal 4275 2) (PyFloat.of_Z 900);
    mk_bar Samples.new_york_day (PyFloat.of_decimal 4275 2)
           (PyFloat.of_decimal 41775 2) ].

(** Two bars whose last close is missing (NaN). *)
Definition nan_last_bars : frame :=
  [ mk_bar Samples.naive_day (PyFloat.of_decimal 4275 2) (PyFloat.of_Z 900);
    mk_bar Samples.new_york_day PyFloat.nan (PyFloat.of_Z 1200) ].

Definition later : datetime := mk_datetime 2024 3 5 14 7 10 0 None.

End Edge.

(** A float that is not NaN and whose sign bit is clear. *)
Definition plus_signed (x : PyFloat.float) : Prop :=
  match x with
  | S754_zero false | S754_infinity false | S754_finite false _ _ => True
  | _ => False
  end.

(** * Properties *)

(** ** Floating-point facts *)

Section FloatFacts.

Variables p em : Z.

Lemma shr_1_nonneg (r : shr_record) : 0 <= shr_m r -> 0 <= shr_m (shr_1 r).
Proof.
  destruct r as [m r s]; destruct m as [|[q|q|]|q]; simpl; lia.
Qed.

Lemma iter_shr_1_nonneg (n : positive) :
  forall r, 0 <= shr_m r -> 0 <= shr_m (iter_pos shr_1 n r).
Proof.
  induction n as [n IH|n IH|]; intros r Hr; simpl.
  - apply IH, IH, shr_1_nonneg, Hr.
  - apply IH, IH, Hr.
  - apply shr_1_nonneg, Hr.
Qed.

Lemma shr_fexp_nonneg (m e : Z) (l : location) :
  0 <= m -> 0 <= shr_m (fst (shr_fexp p em m e l)).
Proof.
  intros Hm. unfold shr_fexp, shr.
  assert (H0 : 0 <= shr_m (shr_record_of_loc m l)) by (destruct l as [|[]]; exact Hm).
  destruct (fexp p em (Zdigits2 m + e) - e) as [|n|n]; simpl; auto.
  apply iter_shr_1_nonneg, H0.
Qed.

Lemma round_nearest_even_nonneg (m : Z) (l : location) :
  0 <= m -> 0 <= round_nearest_even m l.
Proof.
  intros Hm. destruct l as [|[]]; simpl; try lia.
  destruct (Z.even m); lia.
Qed.

(** Rounding a non-negative mantissa with a clear sign yields neither NaN
    nor a negative float. *)
Lemma binary_round_aux_plus (m e : Z) (l : location) :
  0 <= m -> plus_signed (binary_round_aux p em false m e l).
Proof.
  intros Hm. unfold binary_round_aux.
  pose proof (shr_fexp_nonneg m e l Hm) as H1.
  destruct (shr_fexp p em m e l) as [mrs' e'] eqn:E1. simpl in H1.
  pose proof (shr_fexp_nonneg _ e' loc_Exact
                (round_nearest_even_nonneg _ (loc_of_shr_record mrs') H1)) as H2.
  destruct (shr_fexp p em (round_nearest_even _ _) e' loc_Exact) as [mrs'' e''].
  simpl in H2.
  destruct (shr_m mrs'') as [|q|q]; simpl; auto; try lia.
  destruct (e'' <=? em - p); simpl; exact I.
Qed.

(** Rounding commutes with the sign. *)
Lemma binary_round_aux_sign (s : bool) (m e : Z) (l : location) :
  binary_round_aux p em s m e l
  = if s then SFopp (binary_round_aux p em false m e l)
    else binary_round_aux p em false m e l.
Proof.
  destruct s; [|reflexivity].
  unfold binary_round_aux.
  destruct (shr_fexp p em m e l) as [mrs' e'].
  destruct (shr_fexp p em _ e' loc_Exact) as [mrs'' e''].
  destruct (shr_m mrs''); try reflexivity.
  destruct (e'' <=? em - p); reflexivity.
Qed.

Lemma SFdiv_core_nonneg (m1 m2 : positive) (e1 e2 : Z) :
  0 <= fst (fst (SFdiv_core_binary p em (Zpos m1) e1 (Zpos m2) e2)).
Proof.
  unfold SFdiv_core_binary.
  set (s := e1 - e2 - _).
  set (m' := match s with Z0 => Zpos m1 | Zpos _ => Z.shiftl (Zpos m1) s | Zneg _ => 0 end).
  assert (Hm' : 0 <= m').
  { subst m'. destruct s; try lia. apply Z.shiftl_nonneg. lia. }
  pose proof (Z_div_mod m' (Zpos m2) eq_refl) as Hdm.
  destruct (Z.div_eucl m' (Zpos m2)) as [q r]. simpl.
  destruct Hdm as [Heq Hr]. nia.
Qed.

(** Dividing positive finite floats yields a float with a clear sign. *)
Lemma SFdiv_plus (m1 m2 : positive) (e1 e2 : Z) :
  plus_signed (SFdiv p em (S754_finite false m1 e1) (S754_finite false m2 e2)).
Proof.
  unfold SFdiv.
  pose proof (SFdiv_core_nonneg m1 m2 e1 e2) as H.
  destruct (SFdiv_core_binary p em (Zpos m1) e1 (Zpos m2) e2) as [[mz ez] lz].
  simpl in H. simpl xorb. apply binary_round_aux_plus, H.
Qed.

(** Division is odd in its dividend. *)
Lemma SFdiv_opp_l (s : bool) (m1 m2 : positive) (e1 e2 : Z) :
  SFdiv p em (S754_finite s m1 e1) (S754_finite false m2 e2)
  = if s then SFopp (SFdiv p em (S754_finite false m1 e1) (S754_finite false m2 e2))
    else SFdiv p em (S754_finite false m1 e1) (S754_finite false m2 e2).
Proof.
  destruct s; [|reflexivity].
  unfold SFdiv.
  destruct (SFdiv_core_binary p em (Zpos m1) e1 (Zpos m2) e2) as [[mz ez] lz].
  simpl xorb. apply (binary_round_aux_sign true).
Qed.

(** [x - x] is [+0.0] for a finite non-zero [x]. *)
Lemma SFsub_diag (s : bool) (m : positive) (e : Z) :
  SFsub p em (S754_finite s m e) (S754_finite s m e) = S754_zero false.
Proof.
  unfold SFsub. rewrite Z.min_id. unfold shl_align.
  rewrite !Z.sub_diag. reflexivity.
Qed.

End FloatFacts.

(** The thresholds and the factor 100 as floats. *)
Lemma of_Z_thousand :
  PyFloat.of_Z 1000 = S754_finite false 8796093022208000 (-43).
Proof. vm_compute. reflexivity. Qed.

Lemma of_Z_million :
  PyFloat.of_Z 1000000 = S754_finite false 8589934592000000 (-33).
Proof. vm_compute. reflexivity. Qed.

Lemma of_Z_billion :
  PyFloat.of_Z 1000000000 = S754_finite false 8388608000000000 (-23).
Proof. vm_compute. reflexivity. Qed.

Lemma of_Z_hundred :
  PyFloat.of_Z 100 = S754_finite false 7036874417766400 (-46).
Proof. vm_compute. reflexivity. Qed.

(** [a < b] and [b <= c] (on positive finite [b], [c]) exclude [c <= a]. *)
Lemma ltb_excludes_leb (a : PyFloat.float) (mb mc : positive) (eb ec : Z) :
  PyFloat.ltb a (S754_finite false mb eb) = true ->
  eb < ec \/ (eb = ec /\ (mb <= mc)%positive) ->
  PyFloat.leb (S754_finite false mc ec) a = false.
Proof.
  unfold PyFloat.ltb, PyFloat.leb, SFltb, SFleb.
  destruct a as [s|s| |s m e]; simpl; try discriminate; try reflexivity.
  - destruct s; [reflexivity|discriminate].
  - destruct s; [reflexivity|].
    change (Pos.compare_cont Eq m mb) with (Pos.compare m mb).
    change (Pos.compare_cont Eq mc m) with (Pos.compare mc m).
    intros Hlt Hbc.
    destruct (Z.compare_spec e eb) as [He|He|He]; try discriminate.
    + destruct (Pos.compare_spec m mb) as [Hm|Hm|Hm]; try discriminate.
      destruct (Z.compare_spec ec e) as [Hc|Hc|Hc]; try lia; try reflexivity.
      assert (Hgt : (mc ?= m)%positive = Gt) by (apply Pos.compare_gt_iff; lia).
      rewrite Hgt. reflexivity.
    + destruct (Z.compare_spec ec e) as [Hc|Hc|Hc]; try lia; reflexivity.
Qed.

Lemma truediv_nonzero (x c : PyFloat.float) :
  PyFloat.eqb c PyFloat.zero = false ->
  PyFloat.truediv x c = Ok (SFdiv PyFloat.prec PyFloat.emax x c).
Proof. intros H. unfold PyFloat.truediv. rewrite H. reflexivity. Qed.

Lemma to_int_finite (v : PyFloat.float) :
  PyFloat.is_finite v = true -> exists n, PyFloat.to_int v = Ok n.
Proof.
  destruct v; simpl; intros H; try discriminate; eexists; reflexivity.
Qed.

(** ** Indexing and fetching *)

Lemma iloc_last {A : Type} (l : list A) (a : A) : iloc (l ++ [a]) (-1) = Ok a.
Proof.
  unfold iloc. change (-1 <? 0) with true. cbv iota.
  rewrite length_app. simpl List.length.
  replace (Z.of_nat (List.length l + 1) + -1) with (Z.of_nat (List.length l)) by lia.
  replace (0 <=? Z.of_nat (List.length l)) with true by (symmetry; apply Z.leb_le; lia).
  replace (Z.of_nat (List.length l) <? Z.of_nat (List.length l + 1)) with true
    by (symmetry; apply Z.ltb_lt; lia).
  simpl andb. rewrite Nat2Z.id.
  rewrite nth_error_app2 by lia. rewrite Nat.sub_diag. reflexivity.
Qed.

Lemma iloc_penultimate {A : Type} (l : list A) (a b : A) :
  iloc (l ++ [a; b]) (-2) = Ok a.
Proof.
  unfold iloc. change (-2 <? 0) with true. cbv iota.
  rewrite length_app. simpl List.length.
  replace (Z.of_nat (List.length l + 2) + -2) with (Z.of_nat (List.length l)) by lia.
  replace (0 <=? Z.of_nat (List.length l)) with true by (symmetry; apply Z.leb_le; lia).
  replace (Z.of_nat (List.length l) <? Z.of_nat (List.length l + 2)) with true
    by (symmetry; apply Z.ltb_lt; lia).
  simpl andb. rewrite Nat2Z.id.
  rewrite nth_error_app2 by lia. rewrite Nat.sub_diag. reflexivity.
Qed.

Lemma iloc_last_of_two {A : Type} (l : list A) (a b : A) :
  iloc (l ++ [a; b]) (-1) = Ok b.
Proof.
  change (l ++ [a; b])%list with (l ++ [a] ++ [b])%list.
  rewrite app_assoc. apply iloc_last.
Qed.

Section Fetch.

Variable history : provider.
Variable symbol : string.

Lemma fetch_raises (e : exn) :
  history symbol = Raise e -> _fetch_quote history symbol = Raise e.
Proof. intros H. unfold _fetch_quote. rewrite H. reflexivity. Qed.

Lemma fetch_empty :
  history symbol = Ok [] -> _fetch_quote history symbol = Raise (not_found symbol).
Proof. intros H. unfold _fetch_quote. rewrite H. reflexivity. Qed.

(** One bar: the previous close is the last close. *)
Lemma fetch_single (b : bar) :
  history symbol = Ok [b] ->
  _fetch_quote history symbol
  = if PyFloat.eqb (Close b) PyFloat.zero then Raise (invalid_data symbol)
    else Ok (Close b, Close b, utc_if_naive (bar_index b), Volume b).
Proof. intros H. unfold _fetch_quote. rewrite H. reflexivity. Qed.

(** Two bars or more: the previous close is the close before the last. *)
Lemma fetch_several (pre : list bar) (b1 b2 : bar) :
  history symbol = Ok (pre ++ [b1; b2])%list ->
  _fetch_quote history symbol
  = if PyFloat.eqb (Close b1) PyFloat.zero then Raise (invalid_data symbol)
    else Ok (Close b2, Close b1, utc_if_naive (bar_index b2), Volume b2).
Proof.
  intros H. unfold _fetch_quote. rewrite H. cbn [bind].
  assert (He : empty (pre ++ [b1; b2])%list = false) by (destruct pre; reflexivity).
  rewrite He. rewrite !map_app. cbn [map].
  rewrite !iloc_last_of_two. cbn [bind].
  rewrite length_app. cbn [List.length].
  replace (1 <? Z.of_nat (List.length (map Close pre) + 2)) with true
    by (symmetry; apply Z.ltb_lt; lia).
  rewrite iloc_penultimate. reflexivity.
Qed.

(** A frame is empty, a single bar, or ends in two bars. *)
Lemma frame_shape (hist : frame) :
  hist = [] \/ (exists b, hist = [b])
  \/ (exists pre b1 b2, hist = (pre ++ [b1; b2])%list).
Proof.
  induction hist as [|b hist IH]; [left; reflexivity|right].
  destruct IH as [->|[[b' ->]|(pre & b1 & b2 & ->)]].
  - left. exists b. reflexivity.
  - right. exists [], b, b'. reflexivity.
  - right. exists (b :: pre), b1, b2. reflexivity.
Qed.

(** A fetched previous close is never zero. *)
Lemma fetch_prev_nonzero (l p : PyFloat.float) (t : datetime) (v : PyFloat.float) :
  _fetch_quote history symbol = Ok (l, p, t, v) ->
  PyFloat.eqb p PyFloat.zero = false.
Proof.
  destruct (history symbol) as [hist|e] eqn:H.
  - destruct (frame_shape hist) as [->|[[b ->]|(pre & b1 & b2 & ->)]].
    + rewrite (fetch_empty H). discriminate.
    + rewrite (fetch_single b H).
      destruct (PyFloat.eqb (Close b) PyFloat.zero) eqn:E; [discriminate|].
      intros [= _ <- _ _]. exact E.
    + rewrite (fetch_several pre b1 b2 H).
      destruct (PyFloat.eqb (Close b1) PyFloat.zero) eqn:E; [discriminate|].
      intros [= _ <- _ _]. exact E.
  - rewrite (fetch_raises e H). discriminate.
Qed.

End Fetch.

(** ** Volume formatting *)

(** The divisions of [_format_volume] never raise: the divisors are
    non-zero constants. *)
Lemma format_volume_eq (v : PyFloat.float) :
  _format_volume v
  = if PyFloat.geb (PyFloat.abs v) (PyFloat.of_Z 1000000000) then
      Ok (format_2f (SFdiv PyFloat.prec PyFloat.emax v (PyFloat.of_Z 1000000000)) ++ "B")
    else if PyFloat.geb (PyFloat.abs v) (PyFloat.of_Z 1000000) then
      Ok (format_2f (SFdiv PyFloat.prec PyFloat.emax v (PyFloat.of_Z 1000000)) ++ "M")
    else if PyFloat.geb (PyFloat.abs v) (PyFloat.of_Z 1000) then
      Ok (format_2f (SFdiv PyFloat.prec PyFloat.emax v (PyFloat.of_Z 1000)) ++ "K")
    else n <- PyFloat.to_int v ;; Ok (str_of_Z n).
Proof.
  unfold _format_volume.
  rewrite !truediv_nonzero by (vm_compute; reflexivity). reflexivity.
Qed.

Lemma format_volume_finite (v : PyFloat.float) :
  PyFloat.is_finite v = true -> exists s, _format_volume v = Ok s.
Proof.
  intros Hv. rewrite format_volume_eq.
  destruct (PyFloat.geb _ _); [eexists; reflexivity|].
  destruct (PyFloat.geb _ _); [eexists; reflexivity|].
  destruct (PyFloat.geb _ _); [eexists; reflexivity|].
  destruct (to_int_finite v Hv) as [n ->]. eexists. reflexivity.
Qed.

(** ** Building the response *)

Section Build.

Context {T : Text}.
Variable history : provider.
Variable now : datetime.
Variable symbol : string.

Lemma build_raises (e : exn) :
  _fetch_quote history (str_upper symbol) = Raise e ->
  _build_response history now symbol = Raise e.
Proof. intros H. unfold _build_response. rewrite H. reflexivity. Qed.

(** After a successful fetch the division is guarded, and only the
    conversions of the volume can still raise. *)
Lemma build_after_fetch (l p : PyFloat.float) (t : datetime) (v : PyFloat.float) :
  _fetch_quote history (str_upper symbol) = Ok (l, p, t, v) ->
  _build_response history now symbol
  = (n <- PyFloat.to_int v ;;
     vf <- _format_volume v ;;
     Ok (quote_dict (str_upper symbol) l p t n vf now)).
Proof.
  intros H. pose proof (fetch_prev_nonzero _ _ _ _ _ _ H) as Hp.
  unfold _build_response. rewrite H. cbn [bind].
  rewrite (truediv_nonzero _ _ Hp). reflexivity.
Qed.

Lemma build_ok_inv (data : dict) :
  _build_response history now symbol = Ok data ->
  exists l p t v n vf,
    _fetch_quote history (str_upper symbol) = Ok (l, p, t, v)
    /\ PyFloat.to_int v = Ok n
    /\ _format_volume v = Ok vf
    /\ data = quote_dict (str_upper symbol) l p t n vf now.
Proof.
  intros H.
  destruct (_fetch_quote history (str_upper symbol)) as [[[[l p] t] v]|e] eqn:F.
  - rewrite (build_after_fetch l p t v F) in H.
    destruct (PyFloat.to_int v) as [n|e] eqn:I; [|discriminate].
    destruct (_format_volume v) as [vf|e] eqn:V; [|discriminate].
    cbn [bind] in H. injection H as <-.
    exists l, p, t, v, n, vf. repeat split; assumption.
  - rewrite (build_raises e F) in H. discriminate.
Qed.

Lemma build_ok (l p : PyFloat.float) (t : datetime) (v : PyFloat.float) :
  _fetch_quote history (str_upper symbol) = Ok (l, p, t, v) ->
  PyFloat.is_finite v = true ->
  exists n vf,
    PyFloat.to_int v = Ok n /\ _format_volume v = Ok vf
    /\ _build_response history now symbol
       = Ok (quote_dict (str_upper symbol) l p t n vf now).
Proof.
  intros F Hv. rewrite (build_after_fetch l p t v F).
  destruct (to_int_finite v Hv) as [n Hn].
  destruct (format_volume_finite v Hv) as [vf Hvf].
  exists n, vf. rewrite Hn, Hvf. repeat split; reflexivity.
Qed.

End Build.

(** ** Percent change *)

(** C1.  For a two-bar frame with a non-zero previous close, the
    [change_percent] entry of every built response is
    [round((last - prev) / prev * 100, 4)], where [last] is the close of
    the second bar and [prev] the close of the first; and a response is
    built whenever the last volume is a finite number. *)
Theorem change_percent_two_bars
  {T : Text} (history : provider) (now : datetime) (symbol : string) (b1 b2 : bar) :
  history (str_upper symbol) = Ok [b1; b2] ->
  PyFloat.eqb (Close b1) PyFloat.zero = false ->
  let expected :=
    PyFloat.round4
      (PyFloat.mul
         (SFdiv PyFloat.prec PyFloat.emax
                (PyFloat.sub (Close b2) (Close b1)) (Close b1))
         (PyFloat.of_Z 100)) in
  (forall data,
      _build_response history now symbol = Ok data ->
      get data "change_percent" = Some (VFloat expected))
  /\ (PyFloat.is_finite (Volume b2) = true ->
      exists data,
        _build_response history now symbol = Ok data
        /\ get data "change_percent" = Some (VFloat expected)).
Proof.
  intros H Hp expected.
  pose proof (fetch_several history (str_upper symbol) [] b1 b2 H) as F.
  rewrite Hp in F.
  split.
  - intros data Hb.
    destruct (build_ok_inv _ _ _ _ Hb) as (l & p & t & v & n & vf & F' & _ & _ & ->).
    rewrite F in F'. injection F' as <- <- <- <-. reflexivity.
  - intros Hv.
    destruct (build_ok _ now _ _ _ _ _ F Hv) as (n & vf & _ & _ & Hb).
    eexists. split; [exact Hb|reflexivity].
Qed.

Lemma change_percent_two_bars_witness :
  Samples.serve Samples.two_bars (str_upper "aapl") = Ok Samples.two_bars
  /\ (exists data,
         _build_response (Samples.serve Samples.two_bars) Samples.now "aapl" = Ok data
         /\ get data "change_percent"
            = Some (VFloat (S754_finite false 6591693594600826 (-51)))).
Proof.
  split; [reflexivity|].
  destruct (change_percent_two_bars (Samples.serve Samples.two_bars) Samples.now
              "aapl" _ _ eq_refl eq_refl) as [_ H].
  destruct (H eq_refl) as (data & Hb & Hg).
  exists data. split; [exact Hb|]. rewrite Hg. vm_compute. reflexivity.
Defined.

(** ** Thresholds of the volume format *)

Lemma below_billion (a : PyFloat.float) :
  PyFloat.ltb a (PyFloat.of_Z 1000000000) = true ->
  PyFloat.geb a (PyFloat.of_Z 1000000000) = false.
Proof.
  unfold PyFloat.geb. rewrite of_Z_billion. intros H.
  apply (ltb_excludes_leb a _ _ _ _ H). right. split; [reflexivity|lia].
Qed.

Lemma below_million (a : PyFloat.float) :
  PyFloat.ltb a (PyFloat.of_Z 1000000) = true ->
  PyFloat.geb a (PyFloat.of_Z 1000000) = false
  /\ PyFloat.geb a (PyFloat.of_Z 1000000000) = false.
Proof.
  unfold PyFloat.geb. rewrite of_Z_million, of_Z_billion. intros H. split.
  - apply (ltb_excludes_leb a _ _ _ _ H). right. split; [reflexivity|lia].
  - apply (ltb_excludes_leb a _ _ _ _ H). left. lia.
Qed.

Lemma below_thousand (a : PyFloat.float) :
  PyFloat.ltb a (PyFloat.of_Z 1000) = true ->
  PyFloat.geb a (PyFloat.of_Z 1000) = false
  /\ PyFloat.geb a (PyFloat.of_Z 1000000) = false
  /\ PyFloat.geb a (PyFloat.of_Z 1000000000) = false.
Proof.
  unfold PyFloat.geb. rewrite of_Z_thousand, of_Z_million, of_Z_billion.
  intros H. repeat split.
  - apply (ltb_excludes_leb a _ _ _ _ H). right. split; [reflexivity|lia].
  - apply (ltb_excludes_leb a _ _ _ _ H). left. lia.
  - apply (ltb_excludes_leb a _ _ _ _ H). left. lia.
Qed.

(** A float below a finite bound in magnitude converts to an integer. *)
Lemma to_int_below (v : PyFloat.float) (mb : positive) (eb : Z) :
  PyFloat.ltb (PyFloat.abs v) (S754_finite false mb eb) = true ->
  exists n, PyFloat.to_int v = Ok n.
Proof.
  destruct v as [s|s| |s m e]; simpl; intros H; try discriminate;
    eexists; reflexivity.
Qed.

(** C2 (amended).  [_format_volume] selects its branch by the magnitude of
    the volume against 1e9, 1e6 and 1e3, divides by the threshold and
    formats with two decimals and the suffix B, M or K; below 1000 it
    emits [int(volume)] without a suffix.  At the sample values: 500 gives
    "500", 1500 "1.50K", 2500000 "2.50M", 3000000000 "3.00B", 1000000
    "1.00M", and 999999 gives "1000.00K". *)
Theorem format_volume_thresholds (v : PyFloat.float) :
  (PyFloat.geb (PyFloat.abs v) (PyFloat.of_Z 1000000000) = true ->
   _format_volume v
   = Ok (format_2f (SFdiv PyFloat.prec PyFloat.emax v (PyFloat.of_Z 1000000000)) ++ "B"))
  /\ (PyFloat.ltb (PyFloat.abs v) (PyFloat.of_Z 1000000000) = true ->
      PyFloat.geb (PyFloat.abs v) (PyFloat.of_Z 1000000) = true ->
      _format_volume v
      = Ok (format_2f (SFdiv PyFloat.prec PyFloat.emax v (PyFloat.of_Z 1000000)) ++ "M"))
  /\ (PyFloat.ltb (PyFloat.abs v) (PyFloat.of_Z 1000000) = true ->
      PyFloat.geb (PyFloat.abs v) (PyFloat.of_Z 1000) = true ->
      _format_volume v
      = Ok (format_2f (SFdiv PyFloat.prec PyFloat.emax v (PyFloat.of_Z 1000)) ++ "K"))
  /\ (PyFloat.ltb (PyFloat.abs v) (PyFloat.of_Z 1000) = true ->
      exists n, PyFloat.to_int v = Ok n /\ _format_volume v = Ok (str_of_Z n))
  /\ _format_volume (PyFloat.of_Z 500) = Ok "500"
  /\ _format_volume (PyFloat.of_Z 1500) = Ok "1.50K"
  /\ _format_volume (PyFloat.of_Z 2500000) = Ok "2.50M"
  /\ _format_volume (PyFloat.of_Z 3000000000) = Ok "3.00B"
  /\ _format_volume (PyFloat.of_Z 1000000) = Ok "1.00M"
  /\ _format_volume (PyFloat.of_Z 999999) = Ok "1000.00K".
Proof.
  split; [|split; [|split; [|split]]].
  - intros H. rewrite format_volume_eq, H. reflexivity.
  - intros H9 H6. rewrite format_volume_eq, (below_billion _ H9), H6. reflexivity.
  - intros H6 H3. destruct (below_million _ H6) as [H6' H9].
    rewrite format_volume_eq, H9, H6', H3. reflexivity.
  - intros H3. destruct (below_thousand _ H3) as (H3' & H6 & H9).
    rewrite of_Z_thousand in H3.
    destruct (to_int_below v _ _ H3) as [n Hn].
    exists n. split; [exact Hn|].
    rewrite format_volume_eq, H9, H6, H3', Hn. reflexivity.
  - clear v. vm_compute. repeat split; reflexivity.
Qed.

Lemma format_volume_thresholds_witness :
  _format_volume (PyFloat.of_decimal 30125 1) = Ok "3.01K"
  /\ _format_volume (PyFloat.of_decimal 9999 1) = Ok "999".
Proof.
  split.
  - destruct (format_volume_thresholds (PyFloat.of_decimal 30125 1))
      as (_ & _ & HK & _).
    rewrite (HK eq_refl eq_refl). vm_compute. reflexivity.
  - destruct (format_volume_thresholds (PyFloat.of_decimal 9999 1))
      as (_ & _ & _ & Hint & _).
    destruct (Hint eq_refl) as (n & Hn & Hf).
    rewrite Hf. vm_compute in Hn. injection Hn as <-. vm_compute. reflexivity.
Defined.

(** C2, as stated, fails at 999999: the value is not below the threshold
    1e3, so it is divided by 1000 and rounds up to "1000.00K". *)
Lemma format_volume_999999 :
  _format_volume (PyFloat.of_Z 999999) = Ok "1000.00K"
  /\ _format_volume (PyFloat.of_Z 999999) <> Ok "999999".
Proof.
  split; [vm_compute; reflexivity|]. vm_compute. discriminate.
Qed.

(** ** The zero guard on the previous close *)

Lemma get_quote_raises {T : Text} (history : provider) (now : datetime) (symbol : string)
  (e : exn) :
  _build_response history now symbol = Raise e ->
  get_quote history now symbol
  = if exn_is_ValueError e then
      Ok (mk_response 404 [ ("error", VStr (exn_str e)) ])
    else if exn_is_Exception e then
      Ok (mk_response 502 [ ("error", VStr "Failed to reach Yahoo Finance");
                            ("details", VStr (exn_str e)) ])
    else Raise e.
Proof. intros H. unfold get_quote. rewrite H. reflexivity. Qed.

(** C3 (amended).  When the resolved previous close (the only close of a
    one-bar frame, the close before the last otherwise) compares equal to
    zero, the request is answered 404 with the zero-previous-close message
    and no response dict is built.  Consequently every built response was
    computed from a fetched previous close that is not zero; its
    [previous_close] entry is that close rounded to four decimals. *)
Theorem zero_previous_close
  {T : Text} (history : provider) (now : datetime) (symbol : string) :
  (forall b,
      history (str_upper symbol) = Ok [b] ->
      PyFloat.eqb (Close b) PyFloat.zero = true ->
      _build_response history now symbol = Raise (invalid_data (str_upper symbol))
      /\ get_quote history now symbol
         = Ok (mk_response 404
             [ ("error", VStr ("Previous close is zero for symbol '"
                               ++ str_upper symbol ++ "'.")) ]))
  /\ (forall pre b1 b2,
         history (str_upper symbol) = Ok (pre ++ [b1; b2])%list ->
         PyFloat.eqb (Close b1) PyFloat.zero = true ->
         _build_response history now symbol = Raise (invalid_data (str_upper symbol))
         /\ get_quote history now symbol
            = Ok (mk_response 404
                [ ("error", VStr ("Previous close is zero for symbol '"
                                  ++ str_upper symbol ++ "'.")) ]))
  /\ (forall data,
         _build_response history now symbol = Ok data ->
         exists l p t v,
           _fetch_quote history (str_upper symbol) = Ok (l, p, t, v)
           /\ PyFloat.eqb p PyFloat.zero = false
           /\ get data "previous_close" = Some (VFloat (PyFloat.round4 p))).
Proof.
  assert (Hmap : _build_response history now symbol
                 = Raise (invalid_data (str_upper symbol)) ->
                 get_quote history now symbol
                 = Ok (mk_response 404
                     [ ("error", VStr ("Previous close is zero for symbol '"
                                       ++ str_upper symbol ++ "'.")) ])).
  { intros Hb. rewrite (get_quote_raises _ _ _ _ Hb). reflexivity. }
  split; [|split].
  - intros b H H0.
    assert (Hb : _build_response history now symbol
                 = Raise (invalid_data (str_upper symbol))).
    { apply build_raises. rewrite (fetch_single _ _ b H), H0. reflexivity. }
    split; [exact Hb|exact (Hmap Hb)].
  - intros pre b1 b2 H H0.
    assert (Hb : _build_response history now symbol
                 = Raise (invalid_data (str_upper symbol))).
    { apply build_raises. rewrite (fetch_several _ _ pre b1 b2 H), H0. reflexivity. }
    split; [exact Hb|exact (Hmap Hb)].
  - intros data Hb.
    destruct (build_ok_inv _ _ _ _ Hb) as (l & p & t & v & n & vf & F & _ & _ & ->).
    exists l, p, t, v. split; [exact F|split; [|reflexivity]].
    exact (fetch_prev_nonzero _ _ _ _ _ _ F).
Qed.

Lemma zero_previous_close_witness :
  get_quote (Samples.serve Samples.zero_prev_bars) Samples.now "xyz"
  = Ok (mk_response 404 [ ("error", VStr "Previous close is zero for symbol 'XYZ'.") ])
  /\ get_quote (Samples.serve Samples.one_zero_bar) Samples.now "xyz"
     = Ok (mk_response 404 [ ("error", VStr "Previous close is zero for symbol 'XYZ'.") ])
  /\ (exists p r,
         get_quote (Samples.serve Samples.two_bars) Samples.now "aapl" = Ok r
         /\ PyFloat.eqb p PyFloat.zero = false
         /\ get (body r) "previous_close" = Some (VFloat (PyFloat.round4 p))).
Proof.
  destruct (zero_previous_close (Samples.serve Samples.zero_prev_bars) Samples.now "xyz")
    as (_ & Hseveral & _).
  destruct (zero_previous_close (Samples.serve Samples.one_zero_bar) Samples.now "xyz")
    as (Hsingle & _ & _).
  destruct (zero_previous_close (Samples.serve Samples.two_bars) Samples.now "aapl")
    as (_ & _ & Hbuilt).
  split; [|split].
  - exact (proj2 (Hseveral [] _ _ eq_refl eq_refl)).
  - exact (proj2 (Hsingle _ eq_refl eq_refl)).
  - destruct (Hbuilt _ eq_refl) as (l & p & t & v & _ & Hp & Hg).
    exists p. eexists. split; [reflexivity|]. split; [exact Hp|exact Hg].
Defined.

(** C3, as stated, fails on the response: a previous close of 0.00001 is
    not zero, so the guard lets it pass, and the [previous_close] entry of
    the response is that close rounded to four decimals, which is 0.0. *)
Lemma previous_close_entry_can_be_zero :
  exists r,
    get_quote (Samples.serve Samples.tiny_bars) Samples.now "shib-usd" = Ok r
    /\ status r = 200
    /\ get (body r) "previous_close" = Some (VFloat PyFloat.zero)
    /\ PyFloat.eqb PyFloat.zero PyFloat.zero = true.
Proof.
  eexists. split; [vm_compute; reflexivity|].
  vm_compute. repeat split; reflexivity.
Qed.

(** ** Empty frames *)

(** C4.  When the provider returns a frame without rows, no response dict
    is built and the request is answered 404 with a body carrying the
    error message. *)
Theorem empty_history_not_found
  {T : Text} (history : provider) (now : datetime) (symbol : string) :
  history (str_upper symbol) = Ok [] ->
  _build_response history now symbol = Raise (not_found (str_upper symbol))
  /\ (forall data, _build_response history now symbol <> Ok data)
  /\ get_quote history now symbol
     = Ok (mk_response 404
         [ ("error", VStr ("No price data available for symbol '"
                           ++ str_upper symbol ++ "'.")) ]).
Proof.
  intros H.
  assert (Hb : _build_response history now symbol = Raise (not_found (str_upper symbol))).
  { apply build_raises, fetch_empty, H. }
  repeat split.
  - exact Hb.
  - intros data Hd. rewrite Hb in Hd. discriminate.
  - rewrite (get_quote_raises _ _ _ _ Hb). reflexivity.
Qed.

Lemma empty_history_not_found_witness :
  Samples.serve [] (str_upper "nosuch") = Ok []
  /\ get_quote (Samples.serve []) Samples.now "nosuch"
     = Ok (mk_response 404
         [ ("error", VStr "No price data available for symbol 'NOSUCH'.") ]).
Proof.
  split; [reflexivity|].
  exact (proj2 (proj2 (empty_history_not_found (Samples.serve []) Samples.now
                         "nosuch" eq_refl))).
Defined.

(** ** Single-bar frames *)

Lemma eqb_finite_zero (s : bool) (m : positive) (e : Z) :
  PyFloat.eqb (S754_finite s m e) PyFloat.zero = false.
Proof. destruct s; reflexivity. Qed.

(** Comparing a float that is not NaN with itself. *)
Lemma eqb_refl (x : PyFloat.float) : x <> S754_nan -> PyFloat.eqb x x = true.
Proof.
  unfold PyFloat.eqb, SFeqb.
  destruct x as [s|s| |s m e]; simpl; intros H.
  - reflexivity.
  - destruct s; reflexivity.
  - contradiction H; reflexivity.
  - change (Pos.compare_cont Eq m m) with (Pos.compare m m).
    rewrite Z.compare_refl, Pos.compare_refl. destruct s; reflexivity.
Qed.

(** Rounding a finite float to four decimals never yields NaN. *)
Lemma round4_finite_not_nan (s : bool) (m : positive) (e : Z) :
  PyFloat.round4 (S754_finite s m e) <> S754_nan.
Proof.
  unfold PyFloat.round4.
  destruct (PyFloat.scaled_half_even m e 4) as [|n|n]; try discriminate.
  rewrite SFdiv_opp_l.
  pose proof (SFdiv_plus PyFloat.prec PyFloat.emax n 10000 0 0) as H.
  destruct (SFdiv PyFloat.prec PyFloat.emax (S754_finite false n 0)
                  (S754_finite false 10000 0)) as [[]|[]| |[] m' e'];
    simpl in H; try contradiction; destruct s; discriminate.
Qed.

(** The percent change of a close against itself is a zero. *)
Lemma change_percent_same_close (s : bool) (m : positive) (e : Z) :
  let c := S754_finite s m e in
  exists z,
    PyFloat.round4
      (PyFloat.mul (SFdiv PyFloat.prec PyFloat.emax (PyFloat.sub c c) c)
                   (PyFloat.of_Z 100))
    = S754_zero z.
Proof.
  intros c. subst c. unfold PyFloat.sub. rewrite SFsub_diag, of_Z_hundred.
  exists (xorb (xorb false s) false). reflexivity.
Qed.

(** C5 (amended).  For a frame of exactly one bar whose close is a finite
    non-zero number and whose volume is finite, a response is built, its
    [previous_close] entry is its [last_price] entry (the same float, which
    also compares equal to itself), and its [change_percent] entry is a
    zero. *)
Theorem single_bar_quote
  {T : Text} (history : provider) (now : datetime) (symbol : string) (b : bar)
  (s : bool) (m : positive) (e : Z) :
  history (str_upper symbol) = Ok [b] ->
  Close b = S754_finite s m e ->
  PyFloat.is_finite (Volume b) = true ->
  exists data last_price previous_close change_percent,
    _build_response history now symbol = Ok data
    /\ get data "last_price" = Some (VFloat last_price)
    /\ get data "previous_close" = Some (VFloat previous_close)
    /\ get data "change_percent" = Some (VFloat change_percent)
    /\ previous_close = last_price
    /\ PyFloat.eqb previous_close last_price = true
    /\ PyFloat.eqb change_percent PyFloat.zero = true.
Proof.
  intros H Hc Hv.
  pose proof (fetch_single history (str_upper symbol) b H) as F.
  rewrite Hc, eqb_finite_zero in F.
  destruct (build_ok _ now _ _ _ _ _ F Hv) as (n & vf & _ & _ & Hb).
  destruct (change_percent_same_close s m e) as [z Hz]. cbv zeta in Hz.
  eexists. exists (PyFloat.round4 (S754_finite s m e)).
  exists (PyFloat.round4 (S754_finite s m e)). exists (S754_zero z).
  split; [exact Hb|]. split; [reflexivity|]. split; [reflexivity|].
  split; [cbn [quote_dict get String.eqb Ascii.eqb Bool.eqb]; rewrite Hz; reflexivity|].
  split; [reflexivity|]. split; [|reflexivity].
  apply eqb_refl, round4_finite_not_nan.
Qed.

Lemma single_bar_quote_witness :
  Samples.serve Samples.one_bar (str_upper "xyz") = Ok Samples.one_bar
  /\ (exists data last_price,
         _build_response (Samples.serve Samples.one_bar) Samples.now "xyz" = Ok data
         /\ get data "last_price" = Some (VFloat last_price)
         /\ get data "previous_close" = Some (VFloat last_price)).
Proof.
  split; [reflexivity|].
  edestruct (single_bar_quote (Samples.serve Samples.one_bar) Samples.now "xyz")
    as (data & lp & pc & cp & Hb & Hl & Hp & _ & Heq & _).
  - reflexivity.
  - vm_compute. reflexivity.
  - reflexivity.
  - exists data, lp. subst pc. repeat split; assumption.
Defined.

(** C5, as stated, fails when the only close is NaN: the guard compares
    NaN with zero, which is false, a response is built, and its
    [change_percent] entry is NaN, which does not compare equal to zero. *)
Lemma single_nan_bar_change_percent :
  exists r,
    get_quote (Samples.serve Samples.one_nan_bar) Samples.now "xyz" = Ok r
    /\ status r = 200
    /\ get (body r) "change_percent" = Some (VFloat PyFloat.nan)
    /\ PyFloat.eqb PyFloat.nan PyFloat.zero = false.
Proof.
  eexists. split; [vm_compute; reflexivity|].
  vm_compute. repeat split; reflexivity.
Qed.

(** ** The symbol *)

Lemma upper_ascii_not_lower (c : ascii) : is_lower (upper_ascii c) = false.
Proof. destruct c as [[] [] [] [] [] [] [] []]; reflexivity. Qed.

Lemma upper_ascii_fixes_non_lower (c : ascii) :
  is_lower c = false -> upper_ascii c = c.
Proof. unfold is_lower, upper_ascii. intros H. rewrite H. reflexivity. Qed.

(** A lowercase letter is replaced by the capital at the same place of
    the alphabet. *)
Lemma upper_ascii_letter (c : ascii) :
  is_lower c = true ->
  exists k,
    String.get k "abcdefghijklmnopqrstuvwxyz" = Some c
    /\ String.get k "ABCDEFGHIJKLMNOPQRSTUVWXYZ" = Some (upper_ascii c).
Proof.
  destruct c as [[] [] [] [] [] [] [] []]; intros H; try discriminate H;
    match goal with
    | |- exists k, String.get k _ = Some ?c /\ _ =>
        exists (nat_of_ascii c - 97)%nat; split; reflexivity
    end.
Qed.

Lemma upper_length (s : string) : String.length (upper s) = String.length s.
Proof.
  induction s as [|a s' IH]; [reflexivity|].
  cbn [upper String.length]. rewrite IH. reflexivity.
Qed.

Lemma upper_get (s : string) :
  forall i c,
    String.get i s = Some c -> String.get i (upper s) = Some (upper_ascii c).
Proof.
  induction s as [|a s' IH]; intros i c H; [discriminate H|].
  destruct i as [|i]; cbn [upper String.get] in *.
  - injection H as <-. reflexivity.
  - apply IH, H.
Qed.

Lemma upper_not_lower (s : string) :
  forall c, In c (list_ascii_of_string (upper s)) -> is_lower c = false.
Proof.
  induction s as [|a s' IH]; simpl; intros c Hc.
  - contradiction.
  - destruct Hc as [<-|Hc]; [apply upper_ascii_not_lower|apply IH, Hc].
Qed.

(** C6.  The [symbol] entry of every built response is [str.upper] of the
    input, whatever the input, and two inputs with the same uppercased
    form (inputs that differ only in casing, in particular) are answered
    alike.  On an ASCII input the uppercased form has the length of the
    input, keeps every character that is not a lowercase letter, has the
    capital in place of each lowercase letter, and so contains no
    lowercase letter; "aapl" yields "AAPL". *)
Theorem symbol_is_uppercased
  {T : Text} (history : provider) (now : datetime) (symbol : string)
  (data : dict) :
  _build_response history now symbol = Ok data ->
  get data "symbol" = Some (VStr (str_upper symbol))
  /\ (forall symbol',
         str_upper symbol' = str_upper symbol ->
         _build_response history now symbol' = Ok data)
  /\ (upper_on_ascii ->
      is_ascii symbol = true ->
      String.length (str_upper symbol) = String.length symbol
      /\ (forall i c,
             String.get i symbol = Some c ->
             is_lower c = false ->
             String.get i (str_upper symbol) = Some c)
      /\ (forall i c,
             String.get i symbol = Some c ->
             is_lower c = true ->
             exists k,
               String.get k "abcdefghijklmnopqrstuvwxyz" = Some c
               /\ String.get i (str_upper symbol)
                  = String.get k "ABCDEFGHIJKLMNOPQRSTUVWXYZ")
      /\ (forall c,
             In c (list_ascii_of_string (str_upper symbol)) ->
             is_lower c = false))
  /\ (upper_on_ascii -> str_upper "aapl" = "AAPL").
Proof.
  intros Hb. split; [|split; [|split]].
  - destruct (build_ok_inv _ _ _ _ Hb) as (l & p & t & v & n & vf & _ & _ & _ & ->).
    reflexivity.
  - intros symbol' Hs. rewrite <- Hb. unfold _build_response. rewrite Hs.
    reflexivity.
  - intros Hlaw Ha. rewrite (Hlaw symbol Ha).
    split; [apply upper_length|]. split; [|split].
    + intros i c Hi Hc. rewrite (upper_get _ _ _ Hi).
      rewrite (upper_ascii_fixes_non_lower c Hc). reflexivity.
    + intros i c Hi Hc. destruct (upper_ascii_letter c Hc) as (k & Hk & Hk').
      exists k. split; [exact Hk|]. rewrite (upper_get _ _ _ Hi), Hk'.
      reflexivity.
    + apply upper_not_lower.
  - intros Hlaw. apply (Hlaw "aapl"). reflexivity.
Qed.

Lemma symbol_is_uppercased_witness :
  exists data,
    _build_response (Samples.serve Samples.two_bars) Samples.now "aapl" = Ok data
    /\ get data "symbol" = Some (VStr "AAPL")
    /\ _build_response (Samples.serve Samples.two_bars) Samples.now "AaPl" = Ok data
    /\ String.get 2 (str_upper "aapl") = Some "P"%char.
Proof.
  eexists. split; [vm_compute; reflexivity|].
  match goal with
  | |- get ?d _ = _ /\ _ =>
      destruct (symbol_is_uppercased (Samples.serve Samples.two_bars) Samples.now
                  "aapl" d) as (Hs & Hc & Hpin & _)
  end.
  - vm_compute. reflexivity.
  - split; [exact Hs|]. split; [apply Hc; reflexivity|].
    destruct (Hpin (fun s _ => eq_refl) eq_refl) as (_ & _ & Hletter & _).
    destruct (Hletter 2%nat "p"%char eq_refl eq_refl) as (k & Hk & Hk').
    rewrite Hk'. destruct k as [|k]; [discriminate Hk|].
    do 15 (destruct k as [|k]; [try discriminate Hk; try reflexivity|]).
    do 10 (destruct k as [|k]; [discriminate Hk|]). discriminate Hk.
Defined.

(** ** Mapping failures to status codes *)

(** C7 (amended).  The handlers dispatch on the class of the exception.
    Every instance of [ValueError] is answered 404 with its text as the
    error: the two errors raised by [_fetch_quote], no data and a zero
    previous close, are of that class, and so is a [ValueError] that the
    provider raises.  Every other instance of [Exception] (a provider or
    network failure, in particular) is answered 502 with an error message
    and the text of the exception as details.  An exception that is not an
    instance of [Exception] is not caught and leaves [get_quote]
    unanswered. *)
Theorem error_mapping
  {T : Text} (history : provider) (now : datetime) (symbol : string) :
  (forall exc,
      history (str_upper symbol) = Raise exc ->
      _build_response history now symbol = Raise exc)
  /\ (forall exc,
         _build_response history now symbol = Raise exc ->
         exn_is_ValueError exc = true ->
         get_quote history now symbol
         = Ok (mk_response 404 [ ("error", VStr (exn_str exc)) ]))
  /\ (forall exc,
         _build_response history now symbol = Raise exc ->
         exn_is_ValueError exc = false ->
         exn_is_Exception exc = true ->
         get_quote history now symbol
         = Ok (mk_response 502
                 [ ("error", VStr "Failed to reach Yahoo Finance");
                   ("details", VStr (exn_str exc)) ]))
  /\ (forall exc,
         _build_response history now symbol = Raise exc ->
         exn_is_ValueError exc = false ->
         exn_is_Exception exc = false ->
         get_quote history now symbol = Raise exc)
  /\ exn_is_ValueError (not_found (str_upper symbol)) = true
  /\ exn_is_ValueError (invalid_data (str_upper symbol)) = true.
Proof.
  split; [|split; [|split; [|split; [|split]]]].
  - intros exc H. apply build_raises, fetch_raises, H.
  - intros exc Hb Hv. rewrite (get_quote_raises _ _ _ _ Hb), Hv. reflexivity.
  - intros exc Hb Hv He. rewrite (get_quote_raises _ _ _ _ Hb), Hv, He.
    reflexivity.
  - intros exc Hb Hv He. rewrite (get_quote_raises _ _ _ _ Hb), Hv, He.
    reflexivity.
  - reflexivity.
  - reflexivity.
Qed.

Lemma error_mapping_witness :
  get_quote (Samples.failing Samples.connection_error) Samples.now "aapl"
  = Ok (mk_response 502 [ ("error", VStr "Failed to reach Yahoo Finance");
                          ("details", VStr "Max retries exceeded") ])
  /\ get_quote (Samples.serve []) Samples.now "aapl"
     = Ok (mk_response 404
             [ ("error", VStr "No price data available for symbol 'AAPL'.") ])
  /\ get_quote (Samples.failing Samples.interrupt) Samples.now "aapl"
     = Raise Samples.interrupt.
Proof.
  split; [|split].
  - destruct (error_mapping (Samples.failing Samples.connection_error)
                Samples.now "aapl") as (Hp & _ & H502 & _).
    exact (H502 _ (Hp _ eq_refl) eq_refl eq_refl).
  - destruct (error_mapping (Samples.serve []) Samples.now "aapl")
      as (_ & H404 & _).
    exact (H404 (not_found "AAPL") eq_refl eq_refl).
  - destruct (error_mapping (Samples.failing Samples.interrupt)
                Samples.now "aapl") as (Hp & _ & _ & Hout & _).
    exact (Hout _ (Hp _ eq_refl) eq_refl eq_refl).
Defined.

(** C7, as stated, fails for a provider failure whose class derives from
    [ValueError]: a reply that cannot be decoded raises [JSONDecodeError],
    which is neither of the two errors of [_fetch_quote], and the request
    is answered 404 without details. *)
Lemma decode_error_is_answered_404 :
  exists r,
    get_quote (Samples.failing Samples.decode_error) Samples.now "aapl" = Ok r
    /\ Samples.decode_error <> not_found "AAPL"
    /\ Samples.decode_error <> invalid_data "AAPL"
    /\ status r = 404
    /\ status r <> 502
    /\ get (body r) "details" = None.
Proof.
  eexists. split; [vm_compute; reflexivity|].
  vm_compute. repeat split; try reflexivity; discriminate.
Qed.

(** ** Timestamps *)

(** A successful fetch reads the last row of a non-empty frame. *)
Lemma fetch_ok_inv (history : provider) (symbol : string)
  (l p : PyFloat.float) (t : datetime) (v : PyFloat.float) :
  _fetch_quote history symbol = Ok (l, p, t, v) ->
  exists pre b,
    history symbol = Ok (pre ++ [b])%list
    /\ l = Close b /\ t = utc_if_naive (bar_index b) /\ v = Volume b.
Proof.
  destruct (history symbol) as [hist|e] eqn:H.
  - destruct (frame_shape hist) as [->|[[b ->]|(pre & b1 & b2 & ->)]].
    + rewrite (fetch_empty _ _ H). discriminate.
    + rewrite (fetch_single _ _ b H).
      destruct (PyFloat.eqb (Close b) PyFloat.zero); [discriminate|].
      intros [= <- <- <- <-]. exists [], b. repeat split; reflexivity.
    + rewrite (fetch_several _ _ pre b1 b2 H).
      destruct (PyFloat.eqb (Close b1) PyFloat.zero); [discriminate|].
      intros [= <- <- <- <-]. exists (pre ++ [b1])%list, b2.
      rewrite <- app_assoc. repeat split; reflexivity.
  - rewrite (fetch_raises _ _ e H). discriminate.
Qed.

Lemma isoformat_utc (dt : datetime) :
  isoformat (replace_tzinfo dt timezone_utc) = isoformat_local dt ++ "+00:00".
Proof. reflexivity. Qed.

Lemma utc_if_naive_aware (dt : datetime) :
  exists tz, dt_tzinfo (utc_if_naive dt) = Some tz.
Proof.
  unfold utc_if_naive. destruct (dt_tzinfo dt) as [tz|] eqn:E.
  - exists tz. exact E.
  - exists timezone_utc. reflexivity.
Qed.

(** C8.  When the index entry of the last row has no zone, the timestamp
    returned by [_fetch_quote] is that entry with the same calendar fields
    and the UTC zone, and the response prints it with the offset +00:00;
    an entry that has a zone is returned unchanged. *)
Theorem timestamp_defaults_to_utc
  {T : Text} (history : provider) (now : datetime) (symbol : string)
  (pre : list bar) (b : bar) :
  history (str_upper symbol) = Ok (pre ++ [b])%list ->
  (forall l p t v,
      _fetch_quote history (str_upper symbol) = Ok (l, p, t, v) ->
      (dt_tzinfo (bar_index b) = None ->
       t = replace_tzinfo (bar_index b) timezone_utc
       /\ dt_tzinfo t = Some timezone_utc
       /\ (year t, month t, day t, hour t, minute t, second t, microsecond t)
          = (year (bar_index b), month (bar_index b), day (bar_index b),
             hour (bar_index b), minute (bar_index b), second (bar_index b),
             microsecond (bar_index b))
       /\ isoformat t = isoformat_local (bar_index b) ++ "+00:00")
      /\ (forall tz, dt_tzinfo (bar_index b) = Some tz -> t = bar_index b))
  /\ (forall data,
         _build_response history now symbol = Ok data ->
         get data "timestamp"
         = Some (VStr (isoformat (utc_if_naive (bar_index b))))).
Proof.
  intros H.
  assert (Hlast : forall l p t v,
             _fetch_quote history (str_upper symbol) = Ok (l, p, t, v) ->
             t = utc_if_naive (bar_index b)).
  { intros l p t v F.
    destruct (fetch_ok_inv _ _ _ _ _ _ F) as (pre' & b' & H' & _ & -> & _).
    rewrite H in H'. injection H' as H'.
    apply app_inj_tail in H'. destruct H' as [_ <-]. reflexivity. }
  split.
  - intros l p t v F. rewrite (Hlast _ _ _ _ F). unfold utc_if_naive. split.
    + intros Hn. rewrite Hn. repeat split; reflexivity.
    + intros tz Ht. rewrite Ht. reflexivity.
  - intros data Hb.
    destruct (build_ok_inv _ _ _ _ Hb) as (l & p & t & v & n & vf & F & _ & _ & ->).
    rewrite (Hlast _ _ _ _ F). reflexivity.
Qed.

Lemma timestamp_defaults_to_utc_witness :
  exists data,
    _build_response (Samples.serve Samples.one_bar) Samples.now "xyz" = Ok data
    /\ dt_tzinfo Samples.naive_day = None
    /\ get data "timestamp" = Some (VStr "2024-03-04T00:00:00+00:00").
Proof.
  destruct (timestamp_defaults_to_utc (Samples.serve Samples.one_bar) Samples.now
              "xyz" [] (mk_bar Samples.naive_day (PyFloat.of_decimal 4275 2)
                               (PyFloat.of_Z 1500)) eq_refl) as [_ Hd].
  eexists. split; [vm_compute; reflexivity|]. split; [reflexivity|].
  etransitivity; [apply Hd; vm_compute; reflexivity|].
  vm_compute. reflexivity.
Defined.

(** ** Shape of the response *)

Lemma format_offset_signed (off : Z) :
  exists sign rest,
    format_offset off = String sign rest
    /\ (sign = "+"%char \/ sign = "-"%char).
Proof.
  unfold format_offset. destruct (off <? 0); simpl; eauto.
Qed.

(** C9 (amended).  A built response is answered with status 200 and is a
    dict with exactly the keys symbol, last_price, previous_close,
    change_percent, volume, volume_formatted, timestamp and
    last_updated_utc, holding a string, three floats, an integer and three
    strings.  The [timestamp] string is an ISO-8601 date and time followed
    by a signed offset from UTC, and [last_updated_utc] is the clock's
    reading followed by +00:00. *)
Theorem response_fields
  {T : Text} (history : provider) (now : datetime) (symbol : string) (data : dict) :
  _build_response history now symbol = Ok data ->
  get_quote history now symbol = Ok (mk_response 200 data)
  /\ keys data
     = [ "symbol"; "last_price"; "previous_close"; "change_percent"; "volume";
         "volume_formatted"; "timestamp"; "last_updated_utc" ]
  /\ exists s lp pc cp n vf ts lu,
       data = [ ("symbol", VStr s); ("last_price", VFloat lp);
                ("previous_close", VFloat pc); ("change_percent", VFloat cp);
                ("volume", VInt n); ("volume_formatted", VStr vf);
                ("timestamp", VStr ts); ("last_updated_utc", VStr lu) ]
       /\ (exists dt off sign rest,
              ts = isoformat_local dt ++ format_offset off
              /\ format_offset off = String sign rest
              /\ (sign = "+"%char \/ sign = "-"%char))
       /\ lu = isoformat_local now ++ "+00:00".
Proof.
  intros Hb. split; [unfold get_quote; rewrite Hb; reflexivity|].
  destruct (build_ok_inv _ _ _ _ Hb) as (l & p & t & v & n & vf & F & _ & _ & ->).
  split; [reflexivity|].
  do 8 eexists. split; [reflexivity|]. split; [|reflexivity].
  destruct (fetch_ok_inv _ _ _ _ _ _ F) as (pre & b & _ & _ & -> & _).
  destruct (utc_if_naive_aware (bar_index b)) as [tz Htz].
  destruct (format_offset_signed (utcoffset tz)) as (sign & rest & Ho & Hs).
  exists (utc_if_naive (bar_index b)), (utcoffset tz), sign, rest.
  split; [|split; assumption].
  unfold isoformat. rewrite Htz. reflexivity.
Qed.

Lemma response_fields_witness :
  exists data,
    _build_response (Samples.serve Samples.two_bars) Samples.now "aapl" = Ok data
    /\ get data "timestamp" = Some (VStr "2024-03-05T00:00:00-05:00")
    /\ get data "last_updated_utc"
       = Some (VStr "2024-03-05T14:07:09.000123+00:00")
    /\ keys data
       = [ "symbol"; "last_price"; "previous_close"; "change_percent"; "volume";
           "volume_formatted"; "timestamp"; "last_updated_utc" ].
Proof.
  eexists. split; [vm_compute; reflexivity|].
  split; [reflexivity|]. split; [reflexivity|].
  match goal with
  | |- keys ?d = _ =>
      exact (proj1 (proj2 (response_fields (T := ascii_text)
                             (Samples.serve Samples.two_bars)
                             Samples.now "aapl" d
                             ltac:(vm_compute; reflexivity))))
  end.
Defined.

(** C9, as stated, fails on the names of two fields: the response has no
    key [observation_timestamp] and no key [fetched_at]; the two datetimes
    are stored under [timestamp] and [last_updated_utc]. *)
Lemma response_lacks_spec_field_names :
  exists r,
  get_quote (Samples.serve Samples.two_bars) Samples.now "aapl" = Ok r
  /\ status r = 200
  /\ get (body r) "observation_timestamp" = None
  /\ get (body r) "fetched_at" = None
  /\ keys (body r)
     <> [ "symbol"; "last_price"; "previous_close"; "change_percent"; "volume";
          "volume_formatted"; "observation_timestamp"; "fetched_at" ].
Proof.
  eexists. split; [vm_compute; reflexivity|].
  vm_compute. repeat split; try reflexivity; discriminate.
Qed.

(** ** Negative volumes *)

Lemma format_2f_opp (y : PyFloat.float) :
  plus_signed y -> format_2f (SFopp y) = "-" ++ format_2f y.
Proof.
  destruct y as [[]|[]| |[] m e]; simpl; intros H; try contradiction;
    reflexivity.
Qed.

Lemma format_2f_div_negative (m mc : positive) (e ec : Z) :
  format_2f (SFdiv PyFloat.prec PyFloat.emax
                   (S754_finite true m e) (S754_finite false mc ec))
  = "-" ++ format_2f (SFdiv PyFloat.prec PyFloat.emax
                            (S754_finite false m e) (S754_finite false mc ec)).
Proof. rewrite (SFdiv_opp_l _ _ true). apply format_2f_opp, SFdiv_plus. Qed.

(** [int] of a negative float with a negative exponent truncates the
    exact value [-m / 2^(-e)] toward zero. *)
Lemma to_int_negative (m : positive) (e : Z) :
  e < 0 ->
  PyFloat.to_int (S754_finite true m e) = Ok (Z.quot (Zneg m) (2 ^ (- e))).
Proof.
  intros He. unfold PyFloat.to_int, cond_Zopp. f_equal.
  rewrite Z.shiftl_div_pow2 by lia.
  assert (Hd : 0 < 2 ^ (- e)) by (apply Z.pow_pos_nonneg; lia).
  change (Zneg m) with (- Zpos m).
  rewrite Z.quot_opp_l by lia.
  rewrite Z.quot_div_nonneg by lia. reflexivity.
Qed.

Lemma below_thousand_exponent (m : positive) (e : Z) :
  PyFloat.ltb (S754_finite false m e) (PyFloat.of_Z 1000) = true -> e < 0.
Proof.
  rewrite of_Z_thousand. unfold PyFloat.ltb, SFltb, SFcompare.
  destruct (Z.compare_spec e (-43)); try discriminate; lia.
Qed.

(** C10.  For a negative finite volume [v = -p], [_format_volume] selects
    its branch by the magnitude [p]: at or above 1000 the output is that of
    [p] (same digits, same suffix) preceded by the minus sign; below 1000
    the output is the exact value truncated toward zero.  Negative
    infinity gives "-infB".  In particular -2500000 gives "-2.50M" and
    -999.9 gives "-999". *)
Theorem format_volume_negative (m : positive) (e : Z) :
  let v := S754_finite true m e in
  let p := S754_finite false m e in
  PyFloat.abs v = p
  /\ (PyFloat.geb p (PyFloat.of_Z 1000) = true ->
      exists s, _format_volume p = Ok s /\ _format_volume v = Ok ("-" ++ s))
  /\ (PyFloat.ltb p (PyFloat.of_Z 1000) = true ->
      PyFloat.to_int v = Ok (Z.quot (Zneg m) (2 ^ (- e)))
      /\ _format_volume v = Ok (str_of_Z (Z.quot (Zneg m) (2 ^ (- e)))))
  /\ _format_volume (S754_infinity true) = Ok "-infB"
  /\ _format_volume (PyFloat.of_Z (-2500000)) = Ok "-2.50M"
  /\ _format_volume (SFopp (PyFloat.of_decimal 9999 1)) = Ok "-999".
Proof.
  intros v p. split; [reflexivity|]. split; [|split].
  - intros H3. rewrite !format_volume_eq.
    change (PyFloat.abs v) with p. change (PyFloat.abs p) with p.
    rewrite H3. subst v p.
    rewrite of_Z_billion, of_Z_million, of_Z_thousand.
    destruct (PyFloat.geb _ (S754_finite false 8388608000000000 (-23))).
    { eexists. split; [reflexivity|]. rewrite format_2f_div_negative. reflexivity. }
    destruct (PyFloat.geb _ (S754_finite false 8589934592000000 (-33))).
    { eexists. split; [reflexivity|]. rewrite format_2f_div_negative. reflexivity. }
    eexists. split; [reflexivity|]. rewrite format_2f_div_negative. reflexivity.
  - intros H3.
    pose proof (to_int_negative m e (below_thousand_exponent m e H3)) as Hi.
    split; [exact Hi|].
    destruct (below_thousand _ H3) as (H3' & H6 & H9).
    rewrite format_volume_eq. change (PyFloat.abs v) with p.
    rewrite H9, H6, H3'. subst v. rewrite Hi. reflexivity.
  - repeat split; vm_compute; reflexivity.
Qed.

Lemma format_volume_negative_witness :
  _format_volume (S754_finite true 5368709120000000 (-31)) = Ok "-2.50M"
  /\ _format_volume (S754_finite true 8795213412905779 (-43)) = Ok "-999".
Proof.
  split.
  - destruct (format_volume_negative 5368709120000000 (-31)) as (_ & Hge & _).
    destruct (Hge eq_refl) as (s & Hp & Hv).
    rewrite Hv. vm_compute in Hp. injection Hp as <-. reflexivity.
  - destruct (format_volume_negative 8795213412905779 (-43)) as (_ & _ & Hlt & _).
    destruct (Hlt eq_refl) as [_ Hv].
    rewrite Hv. vm_compute. reflexivity.
Defined.

(** * Further properties of the service *)

(** ** What a request can fail with *)

Lemma fetch_failure (history : provider) (symbol : string) (exc : exn) :
  _fetch_quote history symbol = Raise exc ->
  history symbol = Raise exc
  \/ (history symbol = Ok [] /\ exc = not_found symbol)
  \/ ((exists hist, history symbol = Ok hist) /\ exc = invalid_data symbol).
Proof.
  destruct (history symbol) as [hist|e] eqn:H.
  - destruct (frame_shape hist) as [->|[[b ->]|(pre & b1 & b2 & ->)]].
    + rewrite (fetch_empty _ _ H). intros [= <-]. right. left. split; reflexivity.
    + rewrite (fetch_single _ _ b H).
      destruct (PyFloat.eqb (Close b) PyFloat.zero); [|discriminate].
      intros [= <-]. right. right. split; [eexists|]; reflexivity.
    + rewrite (fetch_several _ _ pre b1 b2 H).
      destruct (PyFloat.eqb (Close b1) PyFloat.zero); [|discriminate].
      intros [= <-]. right. right. split; [eexists|]; reflexivity.
  - rewrite (fetch_raises _ _ e H). intros [= <-]. left. reflexivity.
Qed.

(** X1.  Building a response fails in five ways only: with the exception
    the provider raised, with the no-data error on an empty frame, with
    the zero-previous-close error, or with the [ValueError] and the
    [OverflowError] of [int(volume)] on a NaN and on an infinite volume.
    When the provider returned a frame, the failure is therefore never a
    [ZeroDivisionError] (the division is guarded) and never an
    [IndexError]. *)
Theorem build_failure_classification
  {T : Text} (history : provider) (now : datetime) (symbol : string) (exc : exn) :
  _build_response history now symbol = Raise exc ->
  (history (str_upper symbol) = Raise exc
   \/ (history (str_upper symbol) = Ok [] /\ exc = not_found (str_upper symbol))
   \/ exc = invalid_data (str_upper symbol)
   \/ exc = ValueError "cannot convert float NaN to integer"
   \/ exc = OverflowError "cannot convert float infinity to integer")
  /\ (forall hist,
         history (str_upper symbol) = Ok hist ->
         exn_class exc <> "ZeroDivisionError" /\ exn_class exc <> "IndexError").
Proof.
  intros Hb.
  assert (Hc : history (str_upper symbol) = Raise exc
               \/ (history (str_upper symbol) = Ok [] /\ exc = not_found (str_upper symbol))
               \/ exc = invalid_data (str_upper symbol)
               \/ exc = ValueError "cannot convert float NaN to integer"
               \/ exc = OverflowError "cannot convert float infinity to integer").
  { destruct (_fetch_quote history (str_upper symbol)) as [[[[l p] t] v]|e] eqn:F.
    - rewrite (build_after_fetch _ _ _ l p t v F) in Hb.
      destruct v as [s|s| |s m e].
      + destruct (format_volume_finite (S754_zero s) eq_refl) as [vf Hvf].
        rewrite Hvf in Hb. discriminate.
      + injection Hb as <-. do 4 right. reflexivity.
      + injection Hb as <-. do 3 right. left. reflexivity.
      + destruct (format_volume_finite (S754_finite s m e) eq_refl) as [vf Hvf].
        rewrite Hvf in Hb. discriminate.
    - rewrite (build_raises _ _ _ e F) in Hb. injection Hb as ->.
      destruct (fetch_failure _ _ _ F) as [H|[H|[_ H]]]; auto. }
  split; [exact Hc|].
  intros hist Hh.
  destruct Hc as [H | [[_ E] | [E | [E | E]]]]; try subst exc;
    try (split; discriminate).
  rewrite Hh in H. discriminate.
Qed.

Lemma build_failure_classification_witness :
  _build_response (Samples.serve Samples.zero_prev_bars) Samples.now "xyz"
  = Raise (invalid_data "XYZ")
  /\ exn_class (invalid_data "XYZ") <> "ZeroDivisionError".
Proof.
  split; [reflexivity|].
  exact (proj1 (proj2 (build_failure_classification
                         (Samples.serve Samples.zero_prev_bars) Samples.now "xyz"
                         (invalid_data "XYZ") eq_refl)
                      Samples.zero_prev_bars eq_refl)).
Defined.

(** ** Volumes that cannot be converted *)

(** X2.  When the fetch succeeds with a NaN volume, [int(volume)] raises a
    [ValueError], which the handler answers 404 with the text of the
    conversion error. *)
Theorem nan_volume_is_answered_404
  {T : Text} (history : provider) (now : datetime) (symbol : string)
  (l p : PyFloat.float) (t : datetime) :
  _fetch_quote history (str_upper symbol) = Ok (l, p, t, PyFloat.nan) ->
  get_quote history now symbol
  = Ok (mk_response 404 [ ("error", VStr "cannot convert float NaN to integer") ]).
Proof.
  intros F. unfold get_quote.
  rewrite (build_after_fetch _ _ _ l p t PyFloat.nan F). reflexivity.
Qed.

Lemma nan_volume_is_answered_404_witness :
  get_quote (Samples.serve Edge.nan_volume_bar) Samples.now "xyz"
  = Ok (mk_response 404 [ ("error", VStr "cannot convert float NaN to integer") ]).
Proof.
  eapply nan_volume_is_answered_404. vm_compute. reflexivity.
Defined.

(** X3.  When the fetch succeeds with an infinite volume, [int(volume)]
    raises an [OverflowError], which is not a [ValueError]: the request is
    answered 502 with the conversion error as details. *)
Theorem infinite_volume_is_answered_502
  {T : Text} (history : provider) (now : datetime) (symbol : string)
  (l p : PyFloat.float) (t : datetime) (s : bool) :
  _fetch_quote history (str_upper symbol) = Ok (l, p, t, S754_infinity s) ->
  get_quote history now symbol
  = Ok (mk_response 502
      [ ("error", VStr "Failed to reach Yahoo Finance");
        ("details", VStr "cannot convert float infinity to integer") ]).
Proof.
  intros F. unfold get_quote.
  rewrite (build_after_fetch _ _ _ l p t (S754_infinity s) F). reflexivity.
Qed.

Lemma infinite_volume_is_answered_502_witness :
  get_quote (Samples.serve Edge.inf_volume_bar) Samples.now "xyz"
  = Ok (mk_response 502
      [ ("error", VStr "Failed to reach Yahoo Finance");
        ("details", VStr "cannot convert float infinity to integer") ]).
Proof.
  eapply infinite_volume_is_answered_502. vm_compute. reflexivity.
Defined.

(** ** Shape of every answer *)

(** X4.  Every answer of the quote route has one of three shapes: status
    200 with the built dict, which has no [error] key; status 404 with a
    body of exactly one [error] string; status 502 with a body of exactly
    an [error] string and a [details] string.  The route gives no answer
    only when building the response raised an exception that is not an
    instance of [Exception]. *)
Theorem answer_shapes
  {T : Text} (history : provider) (now : datetime) (symbol : string) :
  (forall r,
      get_quote history now symbol = Ok r ->
      (status r = 200
       /\ _build_response history now symbol = Ok (body r)
       /\ get (body r) "error" = None)
      \/ (status r = 404 /\ exists msg, body r = [ ("error", VStr msg) ])
      \/ (status r = 502
          /\ exists msg,
               body r = [ ("error", VStr "Failed to reach Yahoo Finance");
                          ("details", VStr msg) ]))
  /\ (forall exc,
         get_quote history now symbol = Raise exc ->
         _build_response history now symbol = Raise exc
         /\ exn_is_ValueError exc = false
         /\ exn_is_Exception exc = false).
Proof.
  unfold get_quote.
  destruct (_build_response history now symbol) as [data|exc] eqn:Hb.
  - split; [|discriminate].
    intros r [= <-]. left. cbn [status body].
    split; [reflexivity|]. split; [reflexivity|].
    destruct (build_ok_inv _ _ _ _ Hb) as (l & p & t & v & n & vf & _ & _ & _ & ->).
    reflexivity.
  - destruct (exn_is_ValueError exc) eqn:Hv; [|destruct (exn_is_Exception exc) eqn:He].
    + split; [|discriminate]. intros r [= <-]. right. left.
      split; [reflexivity|]. eexists. reflexivity.
    + split; [|discriminate]. intros r [= <-]. right. right.
      split; [reflexivity|]. eexists. reflexivity.
    + split; [discriminate|]. intros exc' [= <-]. repeat split; assumption.
Qed.

Lemma answer_shapes_witness :
  exists r,
    get_quote (Samples.failing Samples.connection_error) Samples.now "aapl" = Ok r
    /\ (status r = 200 \/ status r = 404 \/ status r = 502).
Proof.
  eexists. split; [reflexivity|].
  match goal with
  | |- status ?r = _ \/ _ =>
      destruct (proj1 (answer_shapes (Samples.failing Samples.connection_error)
                         Samples.now "aapl") r eq_refl)
        as [(H & _)|[(H & _)|(H & _)]]
  end; auto.
Defined.

(** ** What the answer depends on *)

(** X5.  Only the last two rows of the frame matter, and of the row before
    the last only its close: two frames that end in the same last row
    after rows with equal closes are answered alike, whatever rows come
    before. *)
Theorem only_last_two_rows
  {T : Text} (history1 history2 : provider) (now : datetime) (symbol : string)
  (pre1 pre2 : list bar) (b1 b1' b2 : bar) :
  history1 (str_upper symbol) = Ok (pre1 ++ [b1; b2])%list ->
  history2 (str_upper symbol) = Ok (pre2 ++ [b1'; b2])%list ->
  Close b1 = Close b1' ->
  get_quote history1 now symbol = get_quote history2 now symbol.
Proof.
  intros H1 H2 Hc.
  assert (F : _fetch_quote history1 (str_upper symbol)
              = _fetch_quote history2 (str_upper symbol)).
  { rewrite (fetch_several _ _ pre1 b1 b2 H1), (fetch_several _ _ pre2 b1' b2 H2), Hc.
    reflexivity. }
  unfold get_quote, _build_response. rewrite F. reflexivity.
Qed.

Lemma only_last_two_rows_witness :
  get_quote (Samples.serve Edge.three_bars) Samples.now "aapl"
  = get_quote (Samples.serve Samples.two_bars) Samples.now "aapl".
Proof.
  exact (only_last_two_rows (Samples.serve Edge.three_bars)
           (Samples.serve Samples.two_bars) Samples.now "aapl"
           [mk_bar Samples.naive_day (PyFloat.of_decimal 16800 2)
                   (PyFloat.of_Z 39000000)] [] _ _ _ eq_refl eq_refl eq_refl).
Defined.

(** X6.  The clock reading influences the [last_updated_utc] entry only:
    two requests served from the same provider at different times are
    both answered or both left unanswered with the same exception, and two
    answers have the same status and agree on every other key of the
    body. *)
Theorem clock_affects_last_updated_only
  {T : Text} (history : provider) (now1 now2 : datetime) (symbol : string) :
  (forall r1,
      get_quote history now1 symbol = Ok r1 ->
      exists r2,
        get_quote history now2 symbol = Ok r2
        /\ status r1 = status r2
        /\ forall k,
             k <> "last_updated_utc" -> get (body r1) k = get (body r2) k)
  /\ (forall exc,
         get_quote history now1 symbol = Raise exc ->
         get_quote history now2 symbol = Raise exc).
Proof.
  unfold get_quote.
  destruct (_fetch_quote history (str_upper symbol)) as [[[[l p] t] v]|e] eqn:F.
  - rewrite !(build_after_fetch _ _ _ l p t v F).
    destruct (PyFloat.to_int v) as [n|e]; cbn [bind].
    + destruct (_format_volume v) as [vf|e]; cbn [bind].
      * split; [|discriminate]. intros r1 [= <-]. eexists.
        split; [reflexivity|]. split; [reflexivity|]. intros k Hk.
        apply String.eqb_neq in Hk.
        cbn [body quote_dict get]. rewrite Hk. reflexivity.
      * split; [intros r1 Hr; exists r1; repeat split; assumption|].
        intros exc Hr. exact Hr.
    + split; [intros r1 Hr; exists r1; repeat split; assumption|].
      intros exc Hr. exact Hr.
  - rewrite !(build_raises _ _ _ e F).
    split; [intros r1 Hr; exists r1; repeat split; assumption|].
    intros exc Hr. exact Hr.
Qed.

Lemma clock_affects_last_updated_only_witness :
  exists r1 r2,
    get_quote (Samples.serve Samples.two_bars) Samples.now "aapl" = Ok r1
    /\ get_quote (Samples.serve Samples.two_bars) Edge.later "aapl" = Ok r2
    /\ get (body r1) "volume_formatted" = get (body r2) "volume_formatted".
Proof.
  eexists.
  match goal with
  | |- exists r2, _ = Ok ?r1 /\ _ =>
      destruct (proj1 (clock_affects_last_updated_only
                         (Samples.serve Samples.two_bars) Samples.now Edge.later
                         "aapl") r1 eq_refl) as (r2 & H2 & _ & Hk)
  end.
  exists r2. split; [reflexivity|]. split; [exact H2|].
  apply Hk. discriminate.
Defined.

(** ** The zero guard, exactly *)

Lemma eqb_zero_iff (x : PyFloat.float) :
  PyFloat.eqb x PyFloat.zero = true <-> exists s, x = S754_zero s.
Proof.
  unfold PyFloat.eqb, SFeqb, SFcompare, PyFloat.zero.
  destruct x as [s|s| |s m e]; split;
    try (intros _; eexists; reflexivity);
    try reflexivity;
    try (destruct s; discriminate);
    try discriminate;
    intros [s' H]; discriminate.
Qed.

(** X7.  The guard of [_fetch_quote] fires exactly on a previous close of
    +0.0 or -0.0.  On a frame ending in two rows the fetch raises the
    zero-previous-close error when the close before the last is a zero,
    and otherwise (NaN and the infinities included) returns the last
    close, that previous close, the last index entry with its zone
    defaulted to UTC, and the last volume. *)
Theorem guard_fires_exactly_on_zero
  (history : provider) (symbol : string) (pre : list bar) (b1 b2 : bar) :
  history symbol = Ok (pre ++ [b1; b2])%list ->
  (_fetch_quote history symbol = Raise (invalid_data symbol)
   <-> exists s, Close b1 = S754_zero s)
  /\ ((forall s, Close b1 <> S754_zero s) ->
      _fetch_quote history symbol
      = Ok (Close b2, Close b1, utc_if_naive (bar_index b2), Volume b2)).
Proof.
  intros H. rewrite (fetch_several _ _ pre b1 b2 H).
  pose proof (eqb_zero_iff (Close b1)) as Hz.
  destruct (PyFloat.eqb (Close b1) PyFloat.zero).
  - split.
    + split; [intros _; apply Hz; reflexivity|reflexivity].
    + intros Hn. destruct (proj1 Hz eq_refl) as [s Hs].
      contradiction (Hn s Hs).
  - split; [|reflexivity].
    split; [discriminate|]. intros Hs. apply Hz in Hs. discriminate.
Qed.

Lemma guard_fires_exactly_on_zero_witness :
  _fetch_quote (Samples.serve Samples.zero_prev_bars) "XYZ"
  = Raise (invalid_data "XYZ")
  /\ (exists t v,
         _fetch_quote (Samples.serve Edge.nan_last_bars) "XYZ"
         = Ok (PyFloat.nan, PyFloat.of_decimal 4275 2, t, v)).
Proof.
  split.
  - apply (proj1 (guard_fires_exactly_on_zero
                    (Samples.serve Samples.zero_prev_bars) "XYZ" [] _ _ eq_refl)).
    exists false. reflexivity.
  - do 2 eexists.
    apply (proj2 (guard_fires_exactly_on_zero
                    (Samples.serve Edge.nan_last_bars) "XYZ" [] _ _ eq_refl)).
    intros s. vm_compute. discriminate.
Defined.

(** ** More on the volume format *)

(** X8.  [_format_volume] raises on NaN only: a NaN volume fails every
    threshold test and reaches [int(volume)], which raises a [ValueError];
    every other float, the infinities included, is formatted. *)
Theorem format_volume_raises_on_nan_only (v : PyFloat.float) :
  _format_volume PyFloat.nan
  = Raise (ValueError "cannot convert float NaN to integer")
  /\ (v <> S754_nan -> exists s, _format_volume v = Ok s)
  /\ ((exists s, _format_volume v = Ok s) -> v <> S754_nan).
Proof.
  split; [vm_compute; reflexivity|]. split.
  - destruct v as [s|s| |s m e]; intros Hv.
    + apply format_volume_finite. reflexivity.
    + destruct s; eexists; vm_compute; reflexivity.
    + contradiction Hv; reflexivity.
    + apply format_volume_finite. reflexivity.
  - intros [s Hs] ->. vm_compute in Hs. discriminate.
Qed.

Lemma format_volume_raises_on_nan_only_witness :
  exists s, _format_volume (S754_infinity false) = Ok s.
Proof.
  apply (proj1 (proj2 (format_volume_raises_on_nan_only (S754_infinity false)))).
  discriminate.
Defined.

(** The integers whose magnitude is below 1000 all print unchanged. *)
Lemma small_integers_checked :
  forallb
    (fun k : nat =>
       let n := Z.of_nat k in
       match _format_volume (PyFloat.of_Z n), _format_volume (PyFloat.of_Z (- n)) with
       | Ok s, Ok s' => String.eqb s (str_of_Z n) && String.eqb s' (str_of_Z (- n))
       | _, _ => false
       end)
    (seq 0 1000) = true.
Proof. vm_compute. reflexivity. Qed.

(** X9.  An integral volume of magnitude below 1000 is printed as that
    integer, without suffix and without decimals. *)
Theorem small_integer_volumes (n : Z) :
  -1000 < n < 1000 -> _format_volume (PyFloat.of_Z n) = Ok (str_of_Z n).
Proof.
  intros Hn.
  pose proof small_integers_checked as Hall.
  rewrite forallb_forall in Hall.
  specialize (Hall (Z.to_nat (Z.abs n))).
  assert (Hin : In (Z.to_nat (Z.abs n)) (seq 0 1000)) by (apply in_seq; lia).
  specialize (Hall Hin). cbv zeta in Hall.
  rewrite Z2Nat.id in Hall by lia.
  destruct (_format_volume (PyFloat.of_Z (Z.abs n))) as [s|] eqn:E1;
    [|discriminate].
  destruct (_format_volume (PyFloat.of_Z (- Z.abs n))) as [s'|] eqn:E2;
    [|discriminate].
  apply andb_prop in Hall. destruct Hall as [Hs Hs'].
  apply String.eqb_eq in Hs. apply String.eqb_eq in Hs'.
  destruct (Z.abs_spec n) as [[_ Ha]|[_ Ha]]; rewrite Ha in *.
  - rewrite E1, Hs. reflexivity.
  - rewrite Z.opp_involutive in E2, Hs'. rewrite E2, Hs'. reflexivity.
Qed.

Lemma small_integer_volumes_witness :
  _format_volume (PyFloat.of_Z (-37)) = Ok "-37".
Proof. apply (small_integer_volumes (-37)). lia. Defined.

(** X10.  When the magnitude of the last volume is below 1000, the
    [volume_formatted] entry of the response is the decimal text of its
    [volume] entry. *)
Theorem small_volume_formatted_is_volume
  {T : Text} (history : provider) (now : datetime) (symbol : string)
  (pre : list bar) (b : bar) (data : dict) :
  history (str_upper symbol) = Ok (pre ++ [b])%list ->
  PyFloat.ltb (PyFloat.abs (Volume b)) (PyFloat.of_Z 1000) = true ->
  _build_response history now symbol = Ok data ->
  exists n,
    get data "volume" = Some (VInt n)
    /\ get data "volume_formatted" = Some (VStr (str_of_Z n)).
Proof.
  intros H Hlt Hb.
  destruct (build_ok_inv _ _ _ _ Hb) as (l & p & t & v & n & vf & F & Hn & Hvf & ->).
  destruct (fetch_ok_inv _ _ _ _ _ _ F) as (pre' & b' & H' & _ & _ & ->).
  rewrite H in H'. injection H' as H'.
  apply app_inj_tail in H'. destruct H' as [_ <-].
  destruct (below_thousand _ Hlt) as (H3 & H6 & H9).
  rewrite format_volume_eq, H9, H6, H3, Hn in Hvf. injection Hvf as <-.
  exists n. split; reflexivity.
Qed.

Lemma small_volume_formatted_is_volume_witness :
  exists data,
    _build_response (Samples.serve Edge.flat_bars) Samples.now "xyz" = Ok data
    /\ get data "volume" = Some (VInt 417)
    /\ get data "volume_formatted" = Some (VStr "417").
Proof.
  eexists. split; [vm_compute; reflexivity|].
  match goal with
  | |- get ?d _ = _ /\ _ =>
      destruct (small_volume_formatted_is_volume
                  (Samples.serve Edge.flat_bars) Samples.now "xyz"
                  [mk_bar Samples.naive_day (PyFloat.of_decimal 4275 2)
                          (PyFloat.of_Z 900)]
                  (mk_bar Samples.new_york_day (PyFloat.of_decimal 4275 2)
                          (PyFloat.of_decimal 41775 2))
                  d eq_refl
                  ltac:(vm_compute; reflexivity) ltac:(vm_compute; reflexivity))
        as (n & Hn & Hf)
  end.
  split; reflexivity.
Defined.

(** ** More on the percent change *)

(** X11.  When the last two closes are the same finite non-zero float, the
    [change_percent] entry of every built response is a zero. *)
Theorem unchanged_close_gives_zero_change
  {T : Text} (history : provider) (now : datetime) (symbol : string)
  (pre : list bar) (b1 b2 : bar) (s : bool) (m : positive) (e : Z)
  (data : dict) :
  history (str_upper symbol) = Ok (pre ++ [b1; b2])%list ->
  Close b1 = S754_finite s m e ->
  Close b2 = S754_finite s m e ->
  _build_response history now symbol = Ok data ->
  exists z, get data "change_percent" = Some (VFloat (S754_zero z)).
Proof.
  intros H H1 H2 Hb.
  pose proof (fetch_several _ _ pre b1 b2 H) as F.
  rewrite H1, H2, eqb_finite_zero in F.
  destruct (build_ok_inv _ _ _ _ Hb) as (l & p & t & v & n & vf & F' & _ & _ & ->).
  rewrite F in F'. injection F' as <- <- <- <-.
  destruct (change_percent_same_close s m e) as [z Hz]. cbv zeta in Hz.
  exists z. cbn [quote_dict get String.eqb Ascii.eqb Bool.eqb].
  rewrite Hz. reflexivity.
Qed.

Lemma unchanged_close_gives_zero_change_witness :
  exists data z,
    _build_response (Samples.serve Edge.flat_bars) Samples.now "xyz" = Ok data
    /\ get data "change_percent" = Some (VFloat (S754_zero z)).
Proof.
  eexists. 
  match goal with
  | |- exists z, _ = Ok ?d /\ _ =>
      edestruct (unchanged_close_gives_zero_change
                   (Samples.serve Edge.flat_bars) Samples.now "xyz" []) as [z Hz]
  end.
  - reflexivity.
  - vm_compute. reflexivity.
  - vm_compute. reflexivity.
  - vm_compute. reflexivity.
  - exists z. split; [reflexivity|exact Hz].
Defined.

Lemma nan_change_percent (p : PyFloat.float) :
  PyFloat.round4
    (PyFloat.mul
       (SFdiv PyFloat.prec PyFloat.emax (PyFloat.sub PyFloat.nan p) p)
       (PyFloat.of_Z 100))
  = PyFloat.nan.
Proof. destruct p; rewrite of_Z_hundred; reflexivity. Qed.

(** X12.  A missing last close is not an error: when the last close is NaN
    while the previous close is not zero and the last volume is finite,
    the request is answered 200 with NaN as [last_price] and as
    [change_percent]. *)
Theorem nan_last_close_is_answered_200
  {T : Text} (history : provider) (now : datetime) (symbol : string)
  (pre : list bar) (b1 b2 : bar) :
  history (str_upper symbol) = Ok (pre ++ [b1; b2])%list ->
  Close b2 = PyFloat.nan ->
  PyFloat.eqb (Close b1) PyFloat.zero = false ->
  PyFloat.is_finite (Volume b2) = true ->
  exists r,
    get_quote history now symbol = Ok r
    /\ status r = 200
    /\ get (body r) "last_price" = Some (VFloat PyFloat.nan)
    /\ get (body r) "change_percent" = Some (VFloat PyFloat.nan).
Proof.
  intros H Hnan Hp Hv.
  pose proof (fetch_several _ _ pre b1 b2 H) as F. rewrite Hp, Hnan in F.
  destruct (build_ok _ now _ _ _ _ _ F Hv) as (n & vf & _ & _ & Hb).
  unfold get_quote. rewrite Hb. eexists. split; [reflexivity|].
  cbn [status body].
  split; [reflexivity|]. split; [reflexivity|].
  cbn [quote_dict get String.eqb Ascii.eqb Bool.eqb].
  rewrite nan_change_percent. reflexivity.
Qed.

Lemma nan_last_close_is_answered_200_witness :
  exists r,
    get_quote (Samples.serve Edge.nan_last_bars) Samples.now "xyz" = Ok r
    /\ status r = 200.
Proof.
  destruct (nan_last_close_is_answered_200 (Samples.serve Edge.nan_last_bars)
              Samples.now "xyz" [] _ _ eq_refl eq_refl)
    as (r & Hr & Hs & _).
  - vm_compute. reflexivity.
  - reflexivity.
  - exists r. split; assumption.
Defined.

(** ** More on the symbol *)

Lemma upper_ascii_idempotent (c : ascii) :
  upper_ascii (upper_ascii c) = upper_ascii c.
Proof. destruct c as [[] [] [] [] [] [] [] []]; reflexivity. Qed.

Lemma upper_idempotent (s : string) : upper (upper s) = upper s.
Proof.
  induction s as [|a s' IH]; [reflexivity|].
  cbn [upper]. rewrite upper_ascii_idempotent, IH. reflexivity.
Qed.

Lemma upper_ascii_stays_ascii (c : ascii) :
  (nat_of_ascii c <? 128)%nat = true ->
  (nat_of_ascii (upper_ascii c) <? 128)%nat = true.
Proof. destruct c as [[] [] [] [] [] [] [] []]; intros H; exact H || reflexivity. Qed.

Lemma upper_stays_ascii (s : string) :
  is_ascii s = true -> is_ascii (upper s) = true.
Proof.
  induction s as [|a s' IH]; [reflexivity|].
  cbn [upper is_ascii]. intros H. apply andb_prop in H. destruct H as [Ha Hs].
  rewrite (upper_ascii_stays_ascii a Ha), (IH Hs). reflexivity.
Qed.

Lemma upper_fixes_non_lower (s : string) :
  (forall c, In c (list_ascii_of_string s) -> is_lower c = false) ->
  upper s = s.
Proof.
  induction s as [|a s' IH]; [reflexivity|]. intros Hc. cbn [upper].
  rewrite upper_ascii_fixes_non_lower by (apply Hc; left; reflexivity).
  rewrite IH; [reflexivity|]. intros c Hin. apply Hc. right. exact Hin.
Qed.

(** X13.  For an ASCII symbol, asking for the uppercased symbol is
    answered like asking for the symbol itself.  An ASCII symbol without
    lowercase letters (digits, dashes, dots and carets included) is not
    changed: the provider is asked for the symbol as it was typed, and the
    [symbol] entry of a built response is the input. *)
Theorem uppercase_symbol_is_kept
  {T : Text} (history : provider) (now : datetime) (symbol : string) :
  upper_on_ascii ->
  is_ascii symbol = true ->
  get_quote history now (str_upper symbol) = get_quote history now symbol
  /\ ((forall c, In c (list_ascii_of_string symbol) -> is_lower c = false) ->
      forall data,
        _build_response history now symbol = Ok data ->
        get data "symbol" = Some (VStr symbol)
        /\ exists hist, history symbol = Ok hist).
Proof.
  intros Hlaw Ha. split.
  - assert (Hi : str_upper (str_upper symbol) = str_upper symbol).
    { rewrite (Hlaw symbol Ha), (Hlaw _ (upper_stays_ascii _ Ha)).
      apply upper_idempotent. }
    unfold get_quote, _build_response. rewrite Hi. reflexivity.
  - intros Hc data Hb.
    assert (Hu : str_upper symbol = symbol).
    { rewrite (Hlaw symbol Ha). apply upper_fixes_non_lower, Hc. }
    destruct (build_ok_inv _ _ _ _ Hb) as (l & p & t & v & n & vf & F & _ & _ & ->).
    rewrite Hu in *. split; [reflexivity|].
    destruct (fetch_ok_inv _ _ _ _ _ _ F) as (pre & b & H & _).
    eexists. exact H.
Qed.

Lemma uppercase_symbol_is_kept_witness :
  get_quote (Samples.serve Samples.two_bars) Samples.now (str_upper "brk-b")
  = get_quote (Samples.serve Samples.two_bars) Samples.now "brk-b"
  /\ (exists data,
         _build_response (Samples.serve Samples.two_bars) Samples.now "^GSPC-1.X"
         = Ok data
         /\ get data "symbol" = Some (VStr "^GSPC-1.X")).
Proof.
  split.
  - apply (uppercase_symbol_is_kept (T := ascii_text)
             (Samples.serve Samples.two_bars) Samples.now
             "brk-b" (fun s _ => eq_refl) eq_refl).
  - eexists. split; [vm_compute; reflexivity|].
    match goal with
    | |- get ?d _ = _ =>
        apply (proj2 (uppercase_symbol_is_kept (T := ascii_text)
                        (Samples.serve Samples.two_bars) Samples.now "^GSPC-1.X"
                        (fun s _ => eq_refl) eq_refl))
    end.
    + intros c Hc. cbn in Hc.
      repeat (destruct Hc as [<-|Hc]; [reflexivity|]). contradiction.
    + vm_compute. reflexivity.
Defined.

(** ** Truncation of the volume *)

(** X14.  [int(volume)] truncates toward zero: for a finite volume with
    exact value [(-1)^s * m * 2^e], the integer [n] it yields has the sign
    of the volume unless it is zero, and its magnitude is the integer part
    of [m * 2^e]: [|n| * 2^(-e) <= m < (|n| + 1) * 2^(-e)] when [e < 0],
    and [|n| = m * 2^e] otherwise. *)
Theorem to_int_truncates (s : bool) (m : positive) (e : Z) :
  exists n,
    PyFloat.to_int (S754_finite s m e) = Ok n
    /\ n = cond_Zopp s (Z.abs n)
    /\ (e < 0 -> Z.abs n * 2 ^ (- e) <= Zpos m < (Z.abs n + 1) * 2 ^ (- e))
    /\ (0 <= e -> Z.abs n = Zpos m * 2 ^ e).
Proof.
  eexists. split; [reflexivity|].
  assert (Hnn : 0 <= Z.shiftl (Zpos m) e) by (apply Z.shiftl_nonneg; lia).
  assert (Habs : Z.abs (cond_Zopp s (Z.shiftl (Zpos m) e)) = Z.shiftl (Zpos m) e).
  { destruct s; unfold cond_Zopp; lia. }
  rewrite Habs. split; [reflexivity|]. split.
  - intros He. rewrite Z.shiftl_div_pow2 by lia.
    assert (Hd : 0 < 2 ^ (- e)) by (apply Z.pow_pos_nonneg; lia).
    pose proof (Z.div_mod (Zpos m) (2 ^ (- e)) ltac:(lia)) as Hdm.
    pose proof (Z.mod_pos_bound (Zpos m) (2 ^ (- e)) Hd) as Hm.
    nia.
  - intros He. apply Z.shiftl_mul_pow2. exact He.
Qed.

Lemma to_int_truncates_witness :
  exists n,
    PyFloat.to_int (S754_finite true 8795213412905779 (-43)) = Ok n
    /\ Z.abs n * 2 ^ 43 <= 8795213412905779 < (Z.abs n + 1) * 2 ^ 43.
Proof.
  destruct (to_int_truncates true 8795213412905779 (-43)) as (n & Hn & _ & Hlt & _).
  exists n. split; [exact Hn|]. apply Hlt. lia.
Defined.
